(** * Thread and enum layer of the vendored Discord client

    A shallow embedding of [discord/enums.py] (the enum metaclass and
    [try_enum]) and of [discord/threads.py] ([Thread], [ThreadMember]),
    with the properties of the thread/member subsystem stated over it.

    Conventions of the embedding:
    - Python exceptions are values of [exn]; a function that may raise
      returns a [result].
    - Dictionaries whose keys are compared with Python's [==] and whose
      insertion order is observable are association lists ([Py.get], [Py.set]);
      the member map of a thread, keyed by integer user id, is a [gmap].
    - Payloads follow the typed-dict annotations of the source
      ([ThreadPayload], [ThreadMetadata], [ThreadMemberPayload]): a key
      is an [option] field, [None] meaning that the key is missing.
    - Calls that leave the process (gateway, REST) are recorded in a
      log of [effect]s; what the outside world answers is read from a
      [ConnectionState]. *)

From stdpp Require Import gmap strings list fin_maps pretty.
From Stdlib Require Import ZArith Lia Ascii.

Open Scope Z_scope.
Open Scope string_scope.
Open Scope list_scope.

(** ** Exceptions and results *)

Inductive exn : Type :=
| KeyError (key : string)
| TypeError
| AttributeError (attr : string)
| ValueError
| InvalidData (msg : string)
| ClientException (msg : string)
| HTTPException (status : Z).

Inductive result (A : Type) : Type :=
| Ok (a : A)
| Raise (e : exn).
Arguments Ok {A} a.
Arguments Raise {A} e.

Definition bind {A B} (r : result A) (k : A -> result B) : result B :=
  match r with
  | Ok a => k a
  | Raise e => Raise e
  end.

Notation "x <- c ;; k" := (bind c (fun x => k))
  (at level 100, c at next level, right associativity).

(** ** Python scalars *)

Module Py.

(** The values an enum member is declared with in [enums.py] ([int],
    [str], [None]) and the scalars a decoded JSON payload can carry. *)
Inductive value : Type :=
| VNone
| VBool (b : bool)
| VInt (z : Z)
| VStr (s : string).

Definition int_of_bool (b : bool) : Z := if b then 1 else 0.

(** [x == y]: [bool] is a subclass of [int], so [True == 1]. *)
Definition eqb (x y : value) : bool :=
  match x, y with
  | VNone, VNone => true
  | VBool a, VBool b => Bool.eqb a b
  | VBool a, VInt z | VInt z, VBool a => Z.eqb (int_of_bool a) z
  | VInt a, VInt b => Z.eqb a b
  | VStr a, VStr b => String.eqb a b
  | _, _ => false
  end.

(** [True] and [1] (and [False] and [0]) are one dictionary key. *)
Definition norm (x : Py.value) : Py.value :=
  match x with
  | Py.VBool b => Py.VInt (Py.int_of_bool b)
  | _ => x
  end.

(** [str(x)], as used by an f-string. *)
Definition str (x : value) : string :=
  match x with
  | VNone => "None"
  | VBool true => "True"
  | VBool false => "False"
  | VInt z => pretty z
  | VStr s => s
  end.

(** A dictionary as the ordered list of its items; keys are pairwise
    different under the key equality [keq]. *)
Section Dict.
Context {K V : Type} (keq : K -> K -> bool).

Fixpoint get (d : list (K * V)) (k : K) : option V :=
  match d with
  | [] => None
  | (k', v) :: d' => if keq k' k then Some v else get d' k
  end.

(** [d[k] = v]: an existing key keeps its place. *)
Fixpoint set (d : list (K * V)) (k : K) (v : V) : list (K * V) :=
  match d with
  | [] => [(k, v)]
  | (k', v') :: d' =>
      if keq k' k then (k', v) :: d' else (k', v') :: set d' k v
  end.
End Dict.

End Py.

(** ** enums.py *)

Module Enums.

(** An instance of the named tuple built by [_create_value_cls]. *)
Record EnumValue : Type := mkEnumValue {
  name : string;
  value : Py.value
}.

(** What a name of the class body is bound to. *)
Inductive attribute : Type :=
| Plain (v : Py.value)        (* a member declaration, [text = 0] *)
| Classmethod                 (* passes through *)
| Descriptor.                 (* a function or property: moved to the value class *)

Definition _is_descriptor (a : attribute) : bool :=
  match a with
  | Plain _ => false
  | Classmethod | Descriptor => true
  end.

Record EnumClass : Type := mkEnumClass {
  __name__ : string;
  _enum_value_map_ : list (Py.value * EnumValue);
  _enum_member_map_ : list (string * EnumValue);
  _enum_member_names_ : list string
}.

Definition starts_with_underscore (key : string) : bool :=
  match key with
  | String c _ => Ascii.eqb c "_"%char
  | EmptyString => false
  end.

(** One round of the loop of [EnumMeta.__new__] over
    [list(attrs.items())]. *)
Definition new_step (cls : EnumClass) (item : string * attribute) : EnumClass :=
  let '(key, a) := item in
  if starts_with_underscore key && negb (_is_descriptor a) then cls
  else
    match a with
    | Classmethod => cls
    | Descriptor => cls
    | Plain v =>
        match Py.get Py.eqb (_enum_value_map_ cls) v with
        | Some new_value =>
            mkEnumClass (__name__ cls)
              (_enum_value_map_ cls)
              (Py.set String.eqb (_enum_member_map_ cls) key new_value)
              (_enum_member_names_ cls)
        | None =>
            let new_value := mkEnumValue key v in
            mkEnumClass (__name__ cls)
              (Py.set Py.eqb (_enum_value_map_ cls) v new_value)
              (Py.set String.eqb (_enum_member_map_ cls) key new_value)
              (_enum_member_names_ cls ++ [key])
        end
    end.

(** [EnumMeta.__new__(cls, name, bases, attrs)]. *)
Definition EnumMeta_new (name : string) (attrs : list (string * attribute)) : EnumClass :=
  fold_left new_step attrs (mkEnumClass name [] [] []).

(** [cls._enum_value_map_[val]]. *)
Definition value_map_getitem (cls : EnumClass) (val : Py.value) : result EnumValue :=
  match Py.get Py.eqb (_enum_value_map_ cls) val with
  | Some m => Ok m
  | None => Raise (KeyError (Py.str val))
  end.

Definition create_unknown_value (cls : EnumClass) (val : Py.value) : result EnumValue :=
  let name := "unknown_" +:+ Py.str val in
  Ok (mkEnumValue name val).

Definition try_enum (cls : EnumClass) (val : Py.value) : result EnumValue :=
  match value_map_getitem cls val with
  | Ok m => Ok m
  | Raise (KeyError _) | Raise TypeError | Raise (AttributeError _) =>
      create_unknown_value cls val
  | Raise e => Raise e
  end.

(** The members a class body declares, in order: the plain attributes
    the loop of [EnumMeta.__new__] does not skip. *)
Definition member_declarations (attrs : list (string * attribute)) : list (string * Py.value) :=
  omap (fun item : string * attribute =>
          match item.2 with
          | Plain v => if starts_with_underscore item.1 then None else Some (item.1, v)
          | Classmethod | Descriptor => None
          end) attrs.

(** The first declared member whose value equals [val]. *)
Definition canonical_member (attrs : list (string * attribute)) (val : Py.value) : option EnumValue :=
  (fun d : string * Py.value => mkEnumValue d.1 d.2)
    <$> List.find (fun d => Py.eqb d.2 val) (member_declarations attrs).

(** [class ChannelType(Enum)]. *)
Definition ChannelType : EnumClass :=
  EnumMeta_new "ChannelType"
    [ ("__module__", Plain (Py.VStr "discord.enums"));
      ("__qualname__", Plain (Py.VStr "ChannelType"));
      ("text", Plain (Py.VInt 0));
      ("private", Plain (Py.VInt 1));
      ("voice", Plain (Py.VInt 2));
      ("group", Plain (Py.VInt 3));
      ("category", Plain (Py.VInt 4));
      ("news", Plain (Py.VInt 5));
      ("store", Plain (Py.VInt 6));
      ("news_thread", Plain (Py.VInt 10));
      ("public_thread", Plain (Py.VInt 11));
      ("private_thread", Plain (Py.VInt 12));
      ("stage_voice", Plain (Py.VInt 13));
      ("__str__", Descriptor);
      ("__int__", Descriptor) ].

End Enums.


(** ** threads.py *)

Module Threads.

Import Enums.

(** [utils.parse_time] and the [datetime] it produces are not part of
    the sources under study: they are parameters of the model. *)
Class Utils : Type := {
  datetime : Type;
  datetime_eq_dec :: EqDecision datetime;
  parse_time : option string -> option datetime
}.

(** [utils._get_as_snowflake(data, key)] is not among the sources
    either. Its callers annotate the result [Optional[int]]: the id
    under [key], or [None] when the key is missing or null. A payload
    record holds such a key as an optional integer already. *)
Definition _get_as_snowflake (field : option Z) : option Z := field.

(** *** The objects a thread refers to *)

Record TextChannel : Type := mkTextChannel {
  channel_id : Z;
  channel_guild_id : Z               (* [channel.guild.id] *)
}.

Record Guild : Type := mkGuild {
  guild_id : Z;
  guild_channels : gmap Z TextChannel;   (* read by [guild.get_channel] *)
  guild_members : gset Z                 (* read by [guild.get_member] *)
}.

(** *** Payloads *)

(** A guild member object of the gateway; [ThreadMember._from_data]
    writes its [guild_id] and [presence] keys. *)
Record MemberPayload : Type := mkMemberPayload {
  mp_user : Z;
  mp_nick : option string;
  mp_guild_id : option Z;
  mp_presence : option string
}.

Record ThreadMemberPayload : Type := mkThreadMemberPayload {
  p_user_id : option Z;
  p_id : option Z;
  p_join_timestamp : option string;
  p_flags : option Z;
  p_member : option MemberPayload;
  p_presence : option string
}.

(** The keys [_unroll_metadata] reads with [data[...]] are required,
    those it reads with [data.get] are optional. *)
Record ThreadMetadata : Type := mkThreadMetadata {
  md_archived : bool;
  md_auto_archive_duration : Z;
  md_archive_timestamp : string;
  md_creation_timestamp : option string;
  md_locked : option bool;
  md_invitable : option bool
}.

(** A thread object of the API, complete ([Thread.__init__]) or
    partial ([Thread._update]). *)
Record ThreadPayload : Type := mkThreadPayload {
  d_id : option Z;
  d_parent_id : option Z;
  d_owner_id : option Z;
  d_name : option string;
  d_type : option Py.value;
  d_last_message_id : option Z;
  d_rate_limit_per_user : option Z;
  d_message_count : option Z;
  d_member_count : option Z;
  d_member_ids_preview : option (list Z);
  d_thread_metadata : option ThreadMetadata;
  d_member : option ThreadMemberPayload
}.

(** The data of a [thread_member_list_update] gateway event. *)
Record ThreadMemberListUpdate : Type := mkThreadMemberListUpdate {
  ev_thread_id : Z;
  ev_members : list (option MemberPayload)   (* [None] is a JSON null *)
}.

(** The keyword arguments of [Thread.edit]; [None] is [MISSING]. *)
Record EditArgs : Type := mkEditArgs {
  arg_name : option string;
  arg_archived : option bool;
  arg_locked : option bool;
  arg_invitable : option bool;
  arg_slowmode_delay : option Z;
  arg_auto_archive_duration : option Z;
  arg_reason : option string
}.

(** The [payload] dictionary [Thread.edit] sends. *)
Record EditPayload : Type := mkEditPayload {
  e_name : option string;
  e_archived : option bool;
  e_auto_archive_duration : option Z;
  e_locked : option bool;
  e_invitable : option bool;
  e_rate_limit_per_user : option Z
}.

(** *** Calls that leave the process *)

Inductive effect : Type :=
| ws_request_lazy_guild (guild : Z) (thread_member_lists : list Z)
| ws_wait_for (event : string) (thread : Z) (timeout : Z)
| http_edit_channel (channel : Z) (payload : EditPayload) (reason : option string)
| parse_guild_member_update (mdata : MemberPayload)
| parse_guild_member_add (mdata : MemberPayload).

(** The REST request of [Thread.edit]. *)
Definition is_http_edit (e : effect) : bool :=
  match e with
  | http_edit_channel _ _ _ => true
  | _ => false
  end.

(** What [self._state] knows and what the outside answers. *)
Record ConnectionState : Type := mkConnectionState {
  self_id : Z;
  (** the [thread_member_list_update] events the gateway delivers, in
      order, within [timeout] of a [wait_for] *)
  ws_incoming : Z -> list ThreadMemberListUpdate;
  (** the answer of the REST endpoint behind [http.edit_channel] *)
  http_edit_channel_answer : Z -> EditPayload -> option string -> result ThreadPayload
}.

Section WithUtils.
Context `{U : Utils}.

(** *** ThreadMember *)

Record ThreadMember : Type := mkThreadMember {
  member_id : Z;                     (* [ThreadMember.id] *)
  thread_id : Z;
  joined_at : option datetime;
  flags : option Z
}.

#[export] Instance ThreadMember_eq_dec : EqDecision ThreadMember.
Proof. solve_decision. Defined.

(** *** Thread *)

Record Thread : Type := mkThread {
  name : string;
  id : Z;
  guild : Guild;
  _type : EnumValue;
  _members : gmap Z ThreadMember;
  owner_id : Z;
  parent_id : Z;
  last_message_id : option Z;
  message_count : Z;
  member_count : Z;
  slowmode_delay : Z;
  locked : bool;
  archived : bool;
  invitable : bool;
  auto_archive_duration : Z;
  archive_timestamp : option datetime;
  _member_ids : list Z;
  _created_at : option datetime
}.

Definition __slots__ : list string :=
  [ "name"; "id"; "guild"; "_type"; "_state"; "_members"; "owner_id";
    "parent_id"; "last_message_id"; "message_count"; "member_count";
    "slowmode_delay"; "locked"; "archived"; "invitable";
    "auto_archive_duration"; "archive_timestamp"; "_member_ids";
    "_created_at" ].


(** [self.<slot> = v] for the slots that are assigned after construction. *)
Definition set_name (v : string) (t : Thread) : Thread :=
  mkThread v (id t) (guild t) (_type t) (_members t) (owner_id t)
    (parent_id t) (last_message_id t) (message_count t) (member_count t)
    (slowmode_delay t) (locked t) (archived t) (invitable t)
    (auto_archive_duration t) (archive_timestamp t) (_member_ids t)
    (_created_at t).

Definition set_members (v : gmap Z ThreadMember) (t : Thread) : Thread :=
  mkThread (name t) (id t) (guild t) (_type t) v (owner_id t) (parent_id t)
    (last_message_id t) (message_count t) (member_count t)
    (slowmode_delay t) (locked t) (archived t) (invitable t)
    (auto_archive_duration t) (archive_timestamp t) (_member_ids t)
    (_created_at t).

Definition set_last_message_id (v : option Z) (t : Thread) : Thread :=
  mkThread (name t) (id t) (guild t) (_type t) (_members t) (owner_id t)
    (parent_id t) v (message_count t) (member_count t) (slowmode_delay t)
    (locked t) (archived t) (invitable t) (auto_archive_duration t)
    (archive_timestamp t) (_member_ids t) (_created_at t).

Definition set_message_count (v : Z) (t : Thread) : Thread :=
  mkThread (name t) (id t) (guild t) (_type t) (_members t) (owner_id t)
    (parent_id t) (last_message_id t) v (member_count t) (slowmode_delay t)
    (locked t) (archived t) (invitable t) (auto_archive_duration t)
    (archive_timestamp t) (_member_ids t) (_created_at t).

Definition set_member_count (v : Z) (t : Thread) : Thread :=
  mkThread (name t) (id t) (guild t) (_type t) (_members t) (owner_id t)
    (parent_id t) (last_message_id t) (message_count t) v (slowmode_delay t)
    (locked t) (archived t) (invitable t) (auto_archive_duration t)
    (archive_timestamp t) (_member_ids t) (_created_at t).

Definition set_slowmode_delay (v : Z) (t : Thread) : Thread :=
  mkThread (name t) (id t) (guild t) (_type t) (_members t) (owner_id t)
    (parent_id t) (last_message_id t) (message_count t) (member_count t) v
    (locked t) (archived t) (invitable t) (auto_archive_duration t)
    (archive_timestamp t) (_member_ids t) (_created_at t).

Definition set_locked (v : bool) (t : Thread) : Thread :=
  mkThread (name t) (id t) (guild t) (_type t) (_members t) (owner_id t)
    (parent_id t) (last_message_id t) (message_count t) (member_count t)
    (slowmode_delay t) v (archived t) (invitable t)
    (auto_archive_duration t) (archive_timestamp t) (_member_ids t)
    (_created_at t).

Definition set_archived (v : bool) (t : Thread) : Thread :=
  mkThread (name t) (id t) (guild t) (_type t) (_members t) (owner_id t)
    (parent_id t) (last_message_id t) (message_count t) (member_count t)
    (slowmode_delay t) (locked t) v (invitable t) (auto_archive_duration t)
    (archive_timestamp t) (_member_ids t) (_created_at t).

Definition set_invitable (v : bool) (t : Thread) : Thread :=
  mkThread (name t) (id t) (guild t) (_type t) (_members t) (owner_id t)
    (parent_id t) (last_message_id t) (message_count t) (member_count t)
    (slowmode_delay t) (locked t) (archived t) v (auto_archive_duration t)
    (archive_timestamp t) (_member_ids t) (_created_at t).

Definition set_auto_archive_duration (v : Z) (t : Thread) : Thread :=
  mkThread (name t) (id t) (guild t) (_type t) (_members t) (owner_id t)
    (parent_id t) (last_message_id t) (message_count t) (member_count t)
    (slowmode_delay t) (locked t) (archived t) (invitable t) v
    (archive_timestamp t) (_member_ids t) (_created_at t).

Definition set_archive_timestamp (v : option datetime) (t : Thread) : Thread :=
  mkThread (name t) (id t) (guild t) (_type t) (_members t) (owner_id t)
    (parent_id t) (last_message_id t) (message_count t) (member_count t)
    (slowmode_delay t) (locked t) (archived t) (invitable t)
    (auto_archive_duration t) v (_member_ids t) (_created_at t).

Definition set_member_ids (v : list Z) (t : Thread) : Thread :=
  mkThread (name t) (id t) (guild t) (_type t) (_members t) (owner_id t)
    (parent_id t) (last_message_id t) (message_count t) (member_count t)
    (slowmode_delay t) (locked t) (archived t) (invitable t)
    (auto_archive_duration t) (archive_timestamp t) v (_created_at t).

Definition set_created_at (v : option datetime) (t : Thread) : Thread :=
  mkThread (name t) (id t) (guild t) (_type t) (_members t) (owner_id t)
    (parent_id t) (last_message_id t) (message_count t) (member_count t)
    (slowmode_delay t) (locked t) (archived t) (invitable t)
    (auto_archive_duration t) (archive_timestamp t) (_member_ids t) v.

(** *** Effects: a log of outside calls, and a result *)

Definition io (A : Type) : Type := list effect * result A.

Definition io_ret {A} (a : A) : io A := ([], Ok a).

Definition io_raise {A} (e : exn) : io A := ([], Raise e).

Definition io_tell (e : effect) : io unit := ([e], Ok tt).

Definition io_bind {A B} (c : io A) (k : A -> io B) : io B :=
  match c with
  | (w, Ok a) => let '(w', r) := k a in (w ++ w', r)
  | (w, Raise e) => (w, Raise e)
  end.

Notation "x <<- c ;; k" := (io_bind c (fun x => k))
  (at level 100, c at next level, right associativity).

(** A list comprehension [[f(a) for a in l]] whose body may raise. *)
Fixpoint io_map {A B} (f : A -> io B) (l : list A) : io (list B) :=
  match l with
  | [] => io_ret []
  | a :: l' => b <<- f a ;; bs <<- io_map f l' ;; io_ret (b :: bs)
  end.

(** [data[key]] on a key that may be missing. *)
Definition getitem {A} (key : string) (field : option A) : result A :=
  match field with
  | Some a => Ok a
  | None => Raise (KeyError key)
  end.

(** *** Properties of [Thread] *)

(** [Thread.parent]: [self.guild.get_channel(self.parent_id)]. *)
Definition parent (t : Thread) : option TextChannel :=
  guild_channels (guild t) !! parent_id t.

(** [Thread.members]: [list(self._members.values())]. *)
Definition members (t : Thread) : list ThreadMember :=
  (map_to_list (_members t)).*2.

(** [Thread.me], getter and setter. *)
Definition me (state : ConnectionState) (t : Thread) : option ThreadMember :=
  _members t !! self_id state.

Definition me_setter (member : ThreadMember) (t : Thread) : Thread :=
  set_members (<[member_id member := member]> (_members t)) t.

Definition _add_member (state : ConnectionState) (member : ThreadMember) (t : Thread) : Thread :=
  if negb (member_id member =? self_id state)%Z
  then set_members (<[member_id member := member]> (_members t)) t
  else t.

(** [self._members.pop(member_id, None)]. *)
Definition _pop_member (member_id : Z) (t : Thread) : Thread * option ThreadMember :=
  match _members t !! member_id with
  | Some m => (set_members (delete member_id (_members t)) t, Some m)
  | None => (t, None)
  end.

(** *** [ThreadMember.__init__] and [ThreadMember._from_data] *)

Definition ThreadMember_new (state : ConnectionState) (parent_thread : Thread)
    (data : ThreadMemberPayload) : io ThreadMember :=
  let id0 :=
    match p_user_id data with
    | Some user_id => user_id
    | None => self_id state                      (* except KeyError *)
    end in
  let thread_id :=
    match p_id data with
    | Some i => i
    | None => id parent_thread                   (* except KeyError *)
    end in
  let joined_at := parse_time (p_join_timestamp data) in
  let flags := p_flags data in
  match p_member data with
  | None => io_ret (mkThreadMember id0 thread_id joined_at flags)
  | Some mdata =>
      (* guild = self.parent.parent.guild *)
      match parent parent_thread with
      | None => io_raise (AttributeError "guild")
      | Some channel =>
          let mdata := mkMemberPayload (mp_user mdata) (mp_nick mdata)
                         (Some (channel_guild_id channel)) (mp_presence mdata) in
          (* self.id = user_id = int(data['user_id']) *)
          match getitem "user_id" (p_user_id data) with
          | Raise e => io_raise e
          | Ok user_id =>
              let mdata := mkMemberPayload (mp_user mdata) (mp_nick mdata)
                             (mp_guild_id mdata) (p_presence data) in
              _ <<- io_tell
                      (if bool_decide (user_id ∈ guild_members (guild parent_thread))
                       then parse_guild_member_update mdata
                       else parse_guild_member_add mdata) ;;
              io_ret (mkThreadMember user_id thread_id joined_at flags)
          end
      end
  end.

(** *** [Thread._unroll_metadata], [Thread._from_data], [Thread.__init__] *)

Definition _unroll_metadata (data : ThreadMetadata) (t : Thread) : Thread :=
  let t := set_archived (md_archived data) t in
  let t := set_auto_archive_duration (md_auto_archive_duration data) t in
  let t := set_archive_timestamp (parse_time (Some (md_archive_timestamp data))) t in
  let t := set_created_at (parse_time (md_creation_timestamp data)) t in
  let t := set_locked (default false (md_locked data)) t in
  set_invitable (default true (md_invitable data)) t.

(** The slots [_from_data] fills before it looks at [data['member']];
    the metadata slots hold no value until [_unroll_metadata] runs. *)
Definition _from_data_slots (guild : Guild) (data : ThreadPayload) : result Thread :=
  id <- getitem "id" (d_id data) ;;
  parent_id <- getitem "parent_id" (d_parent_id data) ;;
  owner_id <- getitem "owner_id" (d_owner_id data) ;;
  name <- getitem "name" (d_name data) ;;
  type <- getitem "type" (d_type data) ;;
  _type <- try_enum ChannelType type ;;
  let last_message_id := _get_as_snowflake (d_last_message_id data) in
  let slowmode_delay := default 0 (d_rate_limit_per_user data) in
  message_count <- getitem "message_count" (d_message_count data) ;;
  member_count <- getitem "member_count" (d_member_count data) ;;
  _member_ids <- getitem "member_ids_preview" (d_member_ids_preview data) ;;
  meta <- getitem "thread_metadata" (d_thread_metadata data) ;;
  Ok (_unroll_metadata meta
        (mkThread name id guild _type ∅ owner_id parent_id last_message_id
           message_count member_count slowmode_delay false false false 0
           None _member_ids None)).

(** [Thread(guild=guild, state=state, data=data)]. *)
Definition Thread_new (state : ConnectionState) (guild : Guild) (data : ThreadPayload) : io Thread :=
  match _from_data_slots guild data with
  | Raise e => io_raise e
  | Ok t =>
      match d_member data with
      | None => io_ret t                           (* except KeyError: pass *)
      | Some member =>
          m <<- ThreadMember_new state t member ;;
          io_ret (me_setter m t)
      end
  end.

(** *** [Thread._update] *)

(** [needle in hay] on strings. *)
Fixpoint contains (needle hay : string) : bool :=
  String.prefix needle hay ||
  match hay with
  | EmptyString => false
  | String _ hay' => contains needle hay'
  end.

(** The value held by a slot, tagged with its Python type. *)
Inductive slot_value : Type :=
| SStr (s : string)
| SInt (z : Z)
| SOptInt (o : option Z)
| SBool (b : bool)
| SEnum (e : EnumValue)
| STime (o : option datetime)
| SInts (l : list Z).

(** [a != b]. *)
Definition ne (a b : slot_value) : bool :=
  match a, b with
  | SStr x, SStr y => negb (String.eqb x y)
  | SInt x, SInt y => negb (x =? y)%Z
  | SOptInt x, SOptInt y => negb (bool_decide (x = y))
  | SBool x, SBool y => negb (Bool.eqb x y)
  | SEnum x, SEnum y =>
      negb (String.eqb (Enums.name x) (Enums.name y)
            && Py.eqb (Enums.value x) (Enums.value y))
  | STime x, STime y => negb (bool_decide (x = y))
  | SInts x, SInts y => negb (bool_decide (x = y))
  | _, _ => true
  end.

(** The slots that hold plain data. [guild], [_state] and [_members]
    hold references to other objects and have no entry. *)
Definition slot_values (t : Thread) : list (string * slot_value) :=
  [ ("name", SStr (name t));
    ("id", SInt (id t));
    ("_type", SEnum (_type t));
    ("owner_id", SInt (owner_id t));
    ("parent_id", SInt (parent_id t));
    ("last_message_id", SOptInt (last_message_id t));
    ("message_count", SInt (message_count t));
    ("member_count", SInt (member_count t));
    ("slowmode_delay", SInt (slowmode_delay t));
    ("locked", SBool (locked t));
    ("archived", SBool (archived t));
    ("invitable", SBool (invitable t));
    ("auto_archive_duration", SInt (auto_archive_duration t));
    ("archive_timestamp", STime (archive_timestamp t));
    ("_member_ids", SInts (_member_ids t));
    ("_created_at", STime (_created_at t)) ].

Definition getattr (t : Thread) (attr : string) : option slot_value :=
  Py.get String.eqb (slot_values t) attr.

(** [getattr(self, attr) != getattr(old, attr)]. *)
Definition getattr_ne (self old : Thread) (attr : string) : bool :=
  match getattr self attr, getattr old attr with
  | Some a, Some b => ne a b
  | _, _ => false
  end.

(** [[x for x in self.__slots__ if not any(y in x for y in (...))]]. *)
Definition compared_attrs : list string :=
  List.filter
    (fun x => negb (existsb (fun y => contains y x)
                      ["member"; "guild"; "state"; "count"]))
    __slots__.

(** The assignments of [_update], before the comparison with [old]. *)
Definition _update_assign (data : ThreadPayload) (t : Thread) : Thread :=
  let t := set_slowmode_delay (default 0 (d_rate_limit_per_user data)) t in
  let t := match d_thread_metadata data with
           | Some meta => _unroll_metadata meta t
           | None => t
           end in
  let t := match d_name data with
           | Some name => set_name name t
           | None => t
           end in
  let t := match _get_as_snowflake (d_last_message_id data) with
           | Some last_message_id => set_last_message_id (Some last_message_id) t
           | None => t
           end in
  let t := match d_message_count data with
           | Some message_count => set_message_count message_count t
           | None => t
           end in
  let t := match d_member_count data with
           | Some member_count => set_member_count member_count t
           | None => t
           end in
  match d_member_ids_preview data with
  | Some member_ids => set_member_ids member_ids t
  | None => t
  end.

(** [Thread._update(data)]: the thread after the call, and what the
    call returns ([old], or [None]). *)
Definition _update (data : ThreadPayload) (t : Thread) : Thread * option Thread :=
  let old := t in
  let t := _update_assign data t in
  if existsb (fun attr => getattr_ne t old attr) compared_attrs
  then (t, Some old)
  else (t, None).

(** *** [Thread.edit] *)

Definition edit_payload (args : EditArgs) : EditPayload :=
  mkEditPayload (arg_name args) (arg_archived args)
    (arg_auto_archive_duration args) (arg_locked args)
    (arg_invitable args) (arg_slowmode_delay args).

Definition edit (state : ConnectionState) (t : Thread) (args : EditArgs) : io Thread :=
  let payload := edit_payload args in
  _ <<- io_tell (http_edit_channel (id t) payload (arg_reason args)) ;;
  match http_edit_channel_answer state (id t) payload (arg_reason args) with
  | Raise e => io_raise e
  | Ok data => Thread_new state (guild t) data
  end.

(** *** [Thread.fetch_members] *)

(** What a method that mutates [self] leaves behind. *)
Record outcome (A : Type) : Type := mkOutcome {
  log : list effect;
  final : Thread;
  returned : result A
}.
Arguments mkOutcome {A} log final returned.
Arguments log {A} o.
Arguments final {A} o.
Arguments returned {A} o.

(** [asyncio.wait_for(ws.wait_for(event, check), timeout)]: the first
    delivered event that passes [check], [None] for [TimeoutError]. *)
Definition wait_for (state : ConnectionState)
    (check : ThreadMemberListUpdate -> bool) (timeout : Z) : option ThreadMemberListUpdate :=
  List.find check (ws_incoming state timeout).

Definition fetch_members (state : ConnectionState) (t : Thread) : outcome (list ThreadMember) :=
  match parent t with
  | None => mkOutcome [] t (Raise (AttributeError "guild"))
  | Some channel =>
      let w := [ ws_request_lazy_guild (channel_guild_id channel) [id t];
                 ws_wait_for "thread_member_list_update" (id t) 15 ] in
      match wait_for state (fun d => (ev_thread_id d =? id t)%Z) 15 with
      | None =>
          mkOutcome w t (Raise (InvalidData "Didn't receieve a response from Discord"))
      | Some data =>
          let '(w', r) :=
            io_map (fun member =>
                      ThreadMember_new state t
                        (mkThreadMemberPayload None None None None member None))
                   (ev_members data) in
          match r with
          | Raise e => mkOutcome (w ++ w') t (Raise e)
          | Ok ms =>
              let t' := fold_left (fun t m => _add_member state m t) ms t in
              mkOutcome (w ++ w') t' (Ok (members t'))
          end
      end
  end.

(** The slots that are compared, as a proposition. *)
Definition same_observable (self old : Thread) : Prop :=
  name self = name old /\
  id self = id old /\
  _type self = _type old /\
  owner_id self = owner_id old /\
  parent_id self = parent_id old /\
  last_message_id self = last_message_id old /\
  slowmode_delay self = slowmode_delay old /\
  locked self = locked old /\
  archived self = archived old /\
  invitable self = invitable old /\
  auto_archive_duration self = auto_archive_duration old /\
  archive_timestamp self = archive_timestamp old /\
  _created_at self = _created_at old.

(** The operations that write the member map of a thread. *)
Inductive member_op : Type :=
| op_add_member (member : ThreadMember)      (* [_add_member], the generic path *)
| op_pop_member (member_id : Z)              (* [_pop_member] *)
| op_me_setter (member : ThreadMember).      (* [self.me = member] *)

Definition apply_op (state : ConnectionState) (t : Thread) (op : member_op) : Thread :=
  match op with
  | op_add_member member => _add_member state member t
  | op_pop_member member_id => (_pop_member member_id t).1
  | op_me_setter member => me_setter member t
  end.

End WithUtils.

Arguments mkOutcome {U A} log final returned.
Arguments log {U A} o.
Arguments final {U A} o.
Arguments returned {U A} o.

(** *** [Thread.purge] *)

Section Purge.
Context {Message : Type}.

(** [l[start:]]. *)
Definition slice_from (start : Z) (l : list Message) : list Message :=
  let n := Z.of_nat (length l) in
  let start := if (start <? 0)%Z then Z.max 0 (n + start) else start in
  drop (Z.to_nat start) l.

(** The state of the loop of [purge]: the messages kept so far, the
    counter, and the calls of [state._delete_messages] made so far. *)
Record purge_state : Type := mkPurgeState {
  ret : list Message;
  count : Z;
  deleted : list (Z * list Message)
}.

(** One round of [async for message in iterator]. *)
Definition purge_step (channel_id : Z) (check : Message -> bool)
    (s : purge_state) (message : Message) : purge_state :=
  let s :=
    if (count s =? 50)%Z
    then mkPurgeState (ret s) 0
           (deleted s ++ [(channel_id, slice_from (-50) (ret s))])
    else s in
  if negb (check message) then s
  else mkPurgeState (ret s ++ [message]) (count s + 1) (deleted s).

(** [Thread.purge]; [history] is what [self.history(...)] yields and
    [check] is [None] for [MISSING]. The result is the list of calls
    of [state._delete_messages] and the returned list. *)
Definition purge (channel_id : Z) (check : option (Message -> bool))
    (history : list Message) : list (Z * list Message) * list Message :=
  let check := match check with
               | Some check => check
               | None => fun _ => true
               end in
  let s := fold_left (purge_step channel_id check) history (mkPurgeState [] 0 []) in
  let to_delete := slice_from (- count s) (ret s) in
  (deleted s ++ [(channel_id, to_delete)], ret s).

(** Every message handed to [state._delete_messages], in order. *)
Definition submitted (calls : list (Z * list Message)) : list Message :=
  concat (map snd calls).

(** What holds of the loop state once [seen] has been iterated. *)
Record loop_inv (check : Message -> bool) (seen : list Message) (s : purge_state) : Prop := mkLoopInv {
  inv_ret : ret s = List.filter check seen;
  inv_count : (0 <= count s <= 50)%Z;
  inv_count_ret : (count s <= Z.of_nat (length (ret s)))%Z;
  inv_deleted :
    submitted (deleted s) = take (length (ret s) - Z.to_nat (count s)) (ret s)
}.

End Purge.

End Threads.

(** ** Concrete data for examples *)

Module Sample.
Import Threads.

(** A [datetime] stands for the text it was parsed from. *)
#[export] Instance utils : Utils :=
  {| datetime := string; parse_time := fun timestamp => timestamp |}.

Definition guild1 : Guild :=
  mkGuild 1 {[ 10 := mkTextChannel 10 1 ]} {[ 7 ]}.


Definition member7 : ThreadMember := mkThreadMember 7 100 None None.

Definition myself : ThreadMember := mkThreadMember 42 100 (Some "2022-01-09T00:00:00") (Some 0).

(** An archived thread of channel 10 with a slowmode of 5 seconds
    and one cached member. *)
Definition thread100 : Thread :=
  mkThread "release-notes" 100 guild1
    (Enums.mkEnumValue "public_thread" (Py.VInt 11))
    {[ 7 := member7 ]} 7 10 (Some 555) 3 2 5 true true false 1440
    (Some "2022-01-10T00:00:00") [7] (Some "2022-01-09T00:00:00").


(** A connection of user 42; the gateway delivers [events] whatever
    the timeout, and the REST endpoint refuses every edit. *)
Definition state_with (events : list ThreadMemberListUpdate) : ConnectionState :=
  mkConnectionState 42 (fun _ => events) (fun _ _ _ => Raise (HTTPException 403)).

Definition silent : ConnectionState := state_with [].

(** A member-list event for another thread. *)
Definition event_for_200 : ThreadMemberListUpdate :=
  mkThreadMemberListUpdate 200 [Some (mkMemberPayload 8 None None None)].

(** A member-list event for thread 100 with one member, user 8. *)
Definition event_for_100 : ThreadMemberListUpdate :=
  mkThreadMemberListUpdate 100 [Some (mkMemberPayload 8 (Some "eight") None None)].

(** An edit that renames the thread and says nothing of [archived]. *)
Definition rename_only : EditArgs :=
  mkEditArgs (Some "renamed") None None None None None None.

(** A payload without any key. *)
Definition empty_payload : ThreadPayload :=
  mkThreadPayload None None None None None None None None None None None None.

(** A payload whose metadata has the required keys only. *)
Definition metadata_only : ThreadPayload :=
  mkThreadPayload None None None None None None (Some 5) None None None
    (Some (mkThreadMetadata true 1440 "2022-01-10T00:00:00" None None None)) None.

(** A payload that repeats the slowmode of [thread100] and carries
    new counters and a new member-id preview. *)
Definition counters_only : ThreadPayload :=
  mkThreadPayload None None None None None None (Some 5) (Some 4) (Some 3)
    (Some [7; 8]) None None.

End Sample.

(** ** enums.py: the class protocol of [EnumMeta] and the enum methods *)

Module EnumOps.
Import Enums.

(** A generator expression or list comprehension whose body may raise. *)
Fixpoint result_map {A B} (f : A -> result B) (l : list A) : result (list B) :=
  match l with
  | [] => Ok []
  | a :: l' => b <- f a ;; bs <- result_map f l' ;; Ok (b :: bs)
  end.

(** [EnumMeta.__call__]: [cls(value)]. *)
Definition __call__ (cls : EnumClass) (value : Py.value) : result EnumValue :=
  match value_map_getitem cls value with
  | Ok m => Ok m
  | Raise (KeyError _) | Raise TypeError => Raise ValueError
  | Raise e => Raise e
  end.

(** [EnumMeta.__getitem__]: [cls[key]]. *)
Definition __getitem__ (cls : EnumClass) (key : string) : result EnumValue :=
  match Py.get String.eqb (_enum_member_map_ cls) key with
  | Some m => Ok m
  | None => Raise (KeyError key)
  end.

(** [EnumMeta.__iter__], run to its end. *)
Definition __iter__ (cls : EnumClass) : result (list EnumValue) :=
  result_map (fun name => __getitem__ cls name) (_enum_member_names_ cls).

(** [EnumMeta.__reversed__], run to its end. *)
Definition __reversed__ (cls : EnumClass) : result (list EnumValue) :=
  result_map (fun name => __getitem__ cls name) (reverse (_enum_member_names_ cls)).

(** [EnumMeta.__len__]. *)
Definition __len__ (cls : EnumClass) : nat := length (_enum_member_names_ cls).

(** [Enum.try_value]: the member, or the value as it came. *)
Definition try_value (cls : EnumClass) (value : Py.value) : result (EnumValue + Py.value) :=
  match value_map_getitem cls value with
  | Ok m => Ok (inl m)
  | Raise (KeyError _) | Raise TypeError => Ok (inr value)
  | Raise e => Raise e
  end.

(** [cls.key] for a member name: the metaclass binds the name to the
    object it puts in the member map. *)
Definition class_getattr (cls : EnumClass) (key : string) : result EnumValue :=
  match Py.get String.eqb (_enum_member_map_ cls) key with
  | Some m => Ok m
  | None => Raise (AttributeError key)
  end.

(** Identity of values and of enum values is decidable. *)
#[export] Instance value_eq_dec : EqDecision Py.value.
Proof. solve_decision. Defined.

#[export] Instance EnumValue_eq_dec : EqDecision EnumValue.
Proof. solve_decision. Defined.

(** The enum value [EnumMeta.__new__] builds for a declaration:
    [value_cls(name=key, value=value)]. *)
Definition declared_value (d : string * Py.value) : EnumValue := mkEnumValue d.1 d.2.

(** [a == b] on enum values, which are named tuples of a name and a
    value. *)
Definition ev_eqb (a b : EnumValue) : bool :=
  String.eqb (name a) (name b) && Py.eqb (value a) (value b).

(** [bool(x)]. *)
Definition truthy (x : Py.value) : bool :=
  match x with
  | Py.VNone => false
  | Py.VBool b => b
  | Py.VInt z => negb (z =? 0)%Z
  | Py.VStr s => negb (String.eqb s "")
  end.

(** What the loop of [EnumMeta.__new__] keeps true of the class it
    builds, [seen] being the names met so far: the member names are
    the names of the entries of the value map, in order; every entry
    is bound to its own name in the member map; the member map has
    names of [seen] only; no two keys of the value map are equal; an
    entry is stored under its own value. *)
Record class_inv (seen : list string) (cls : EnumClass) : Prop := mkClassInv {
  inv_names :
    _enum_member_names_ cls = (fun e : Py.value * EnumValue => name e.2) <$> _enum_value_map_ cls;
  inv_bound :
    forall v m, (v, m) ∈ _enum_value_map_ cls ->
      Py.get String.eqb (_enum_member_map_ cls) (name m) = Some m;
  inv_seen :
    forall k, is_Some (Py.get String.eqb (_enum_member_map_ cls) k) -> k ∈ seen;
  inv_distinct :
    NoDup ((fun e : Py.value * EnumValue => Py.norm e.1) <$> _enum_value_map_ cls);
  inv_value :
    forall v m, (v, m) ∈ _enum_value_map_ cls -> value m = v
}.

(** [class DefaultAvatar(Enum)]. *)
Definition DefaultAvatar_attrs : list (string * attribute) :=
  [ ("__module__", Plain (Py.VStr "discord.enums"));
    ("__qualname__", Plain (Py.VStr "DefaultAvatar"));
    ("blurple", Plain (Py.VInt 0));
    ("grey", Plain (Py.VInt 1));
    ("gray", Plain (Py.VInt 1));
    ("green", Plain (Py.VInt 2));
    ("orange", Plain (Py.VInt 3));
    ("red", Plain (Py.VInt 4));
    ("pink", Plain (Py.VInt 5));
    ("__str__", Descriptor) ].

Definition DefaultAvatar : EnumClass := EnumMeta_new "DefaultAvatar" DefaultAvatar_attrs.

(** *** [FriendFlags] *)

Definition FriendFlags_attrs : list (string * attribute) :=
  [ ("__module__", Plain (Py.VStr "discord.enums"));
    ("__qualname__", Plain (Py.VStr "FriendFlags"));
    ("noone", Plain (Py.VInt 0));
    ("mutual_guilds", Plain (Py.VInt 1));
    ("mutual_friends", Plain (Py.VInt 2));
    ("guild_and_friends", Plain (Py.VInt 3));
    ("everyone", Plain (Py.VInt 4));
    ("to_dict", Descriptor);
    ("_from_dict", Classmethod) ].

Definition FriendFlags : EnumClass := EnumMeta_new "FriendFlags" FriendFlags_attrs.

(** The dictionary [to_dict] returns, by key. *)
Record FriendFlagsDict : Type := mkFriendFlagsDict {
  ff_all : bool;
  ff_mutual_friends : bool;
  ff_mutual_guilds : bool
}.

(** [FriendFlags.to_dict]; [None] when no branch returns. *)
Definition to_dict (self : EnumValue) : option FriendFlagsDict :=
  if Py.eqb (value self) (Py.VInt 0) then Some (mkFriendFlagsDict false false false)
  else if Py.eqb (value self) (Py.VInt 1) then Some (mkFriendFlagsDict false false true)
  else if Py.eqb (value self) (Py.VInt 2) then Some (mkFriendFlagsDict false true false)
  else if Py.eqb (value self) (Py.VInt 3) then Some (mkFriendFlagsDict false true true)
  else if Py.eqb (value self) (Py.VInt 4) then Some (mkFriendFlagsDict true true true)
  else None.

(** The dictionary of [to_dict] as a payload. *)
Definition FriendFlagsDict_items (d : FriendFlagsDict) : list (string * Py.value) :=
  [ ("all", Py.VBool (ff_all d));
    ("mutual_friends", Py.VBool (ff_mutual_friends d));
    ("mutual_guilds", Py.VBool (ff_mutual_guilds d)) ].

(** [data.get(key)] and its truth value; a missing key reads [None]. *)
Definition dict_get_truthy (data : list (string * Py.value)) (key : string) : bool :=
  truthy (default Py.VNone (Py.get String.eqb data key)).

(** [FriendFlags._from_dict], a class method. *)
Definition _from_dict (cls : EnumClass) (data : list (string * Py.value)) : result EnumValue :=
  let all := dict_get_truthy data "all" in
  let mutual_guilds := dict_get_truthy data "mutual_guilds" in
  let mutual_friends := dict_get_truthy data "mutual_friends" in
  if all then class_getattr cls "everyone"
  else if mutual_guilds && mutual_friends then class_getattr cls "guild_and_friends"
  else if mutual_guilds then class_getattr cls "mutual_guilds"
  else if mutual_friends then class_getattr cls "mutual_friends"
  else class_getattr cls "noone".

(** *** [AuditLogActionCategory] and [AuditLogAction] *)

Definition AuditLogActionCategory_attrs : list (string * attribute) :=
  [ ("__module__", Plain (Py.VStr "discord.enums"));
    ("__qualname__", Plain (Py.VStr "AuditLogActionCategory"));
    ("create", Plain (Py.VInt 1));
    ("delete", Plain (Py.VInt 2));
    ("update", Plain (Py.VInt 3)) ].

Definition AuditLogActionCategory : EnumClass :=
  EnumMeta_new "AuditLogActionCategory" AuditLogActionCategory_attrs.

Definition AuditLogAction_attrs : list (string * attribute) :=
  [
    ("__module__", Plain (Py.VStr "discord.enums"));
    ("__qualname__", Plain (Py.VStr "AuditLogAction"));
    ("guild_update", Plain (Py.VInt 1));
    ("channel_create", Plain (Py.VInt 10));
    ("channel_update", Plain (Py.VInt 11));
    ("channel_delete", Plain (Py.VInt 12));
    ("overwrite_create", Plain (Py.VInt 13));
    ("overwrite_update", Plain (Py.VInt 14));
    ("overwrite_delete", Plain (Py.VInt 15));
    ("kick", Plain (Py.VInt 20));
    ("member_prune", Plain (Py.VInt 21));
    ("ban", Plain (Py.VInt 22));
    ("unban", Plain (Py.VInt 23));
    ("member_update", Plain (Py.VInt 24));
    ("member_role_update", Plain (Py.VInt 25));
    ("member_move", Plain (Py.VInt 26));
    ("member_disconnect", Plain (Py.VInt 27));
    ("bot_add", Plain (Py.VInt 28));
    ("role_create", Plain (Py.VInt 30));
    ("role_update", Plain (Py.VInt 31));
    ("role_delete", Plain (Py.VInt 32));
    ("invite_create", Plain (Py.VInt 40));
    ("invite_update", Plain (Py.VInt 41));
    ("invite_delete", Plain (Py.VInt 42));
    ("webhook_create", Plain (Py.VInt 50));
    ("webhook_update", Plain (Py.VInt 51));
    ("webhook_delete", Plain (Py.VInt 52));
    ("emoji_create", Plain (Py.VInt 60));
    ("emoji_update", Plain (Py.VInt 61));
    ("emoji_delete", Plain (Py.VInt 62));
    ("message_delete", Plain (Py.VInt 72));
    ("message_bulk_delete", Plain (Py.VInt 73));
    ("message_pin", Plain (Py.VInt 74));
    ("message_unpin", Plain (Py.VInt 75));
    ("integration_create", Plain (Py.VInt 80));
    ("integration_update", Plain (Py.VInt 81));
    ("integration_delete", Plain (Py.VInt 82));
    ("stage_instance_create", Plain (Py.VInt 83));
    ("stage_instance_update", Plain (Py.VInt 84));
    ("stage_instance_delete", Plain (Py.VInt 85));
    ("sticker_create", Plain (Py.VInt 90));
    ("sticker_update", Plain (Py.VInt 91));
    ("sticker_delete", Plain (Py.VInt 92));
    ("thread_create", Plain (Py.VInt 110));
    ("thread_update", Plain (Py.VInt 111));
    ("thread_delete", Plain (Py.VInt 112));
    ("category", Descriptor);
    ("target_type", Descriptor) ].

Definition AuditLogAction : EnumClass := EnumMeta_new "AuditLogAction" AuditLogAction_attrs.

(** The items of the [lookup] literal of [AuditLogAction.category]:
    [AuditLogAction.<key>: AuditLogActionCategory.<value>], or [None]. *)
Definition category_items : list (string * option string) :=
  [
    ("guild_update", Some "update");
    ("channel_create", Some "create");
    ("channel_update", Some "update");
    ("channel_delete", Some "delete");
    ("overwrite_create", Some "create");
    ("overwrite_update", Some "update");
    ("overwrite_delete", Some "delete");
    ("kick", None);
    ("member_prune", None);
    ("ban", None);
    ("unban", None);
    ("member_update", Some "update");
    ("member_role_update", Some "update");
    ("member_move", None);
    ("member_disconnect", None);
    ("bot_add", None);
    ("role_create", Some "create");
    ("role_update", Some "update");
    ("role_delete", Some "delete");
    ("invite_create", Some "create");
    ("invite_update", Some "update");
    ("invite_delete", Some "delete");
    ("webhook_create", Some "create");
    ("webhook_update", Some "update");
    ("webhook_delete", Some "delete");
    ("emoji_create", Some "create");
    ("emoji_update", Some "update");
    ("emoji_delete", Some "delete");
    ("message_delete", Some "delete");
    ("message_bulk_delete", Some "delete");
    ("message_pin", None);
    ("message_unpin", None);
    ("integration_create", Some "create");
    ("integration_update", Some "update");
    ("integration_delete", Some "delete");
    ("stage_instance_create", Some "create");
    ("stage_instance_update", Some "update");
    ("stage_instance_delete", Some "delete");
    ("sticker_create", Some "create");
    ("sticker_update", Some "update");
    ("sticker_delete", Some "delete");
    ("thread_create", Some "create");
    ("thread_update", Some "update");
    ("thread_delete", Some "delete") ].

(** The [lookup] dictionary, built at each call. *)
Definition category_lookup : result (list (EnumValue * option EnumValue)) :=
  result_map
    (fun item : string * option string =>
       key <- class_getattr AuditLogAction item.1 ;;
       val <- match item.2 with
              | Some c => c' <- class_getattr AuditLogActionCategory c ;; Ok (Some c')
              | None => Ok None
              end ;;
       Ok (key, val))
    category_items.

(** [AuditLogAction.category]: [lookup[self]]. *)
Definition category (self : EnumValue) : result (option EnumValue) :=
  lookup <- category_lookup ;;
  match Py.get ev_eqb lookup self with
  | Some c => Ok c
  | None => Raise (KeyError (name self))
  end.

(** [v < n] for an integer literal [n]. *)
Definition lt (v : Py.value) (n : Z) : result bool :=
  match v with
  | Py.VInt z => Ok (z <? n)%Z
  | Py.VBool b => Ok (Py.int_of_bool b <? n)%Z
  | Py.VNone | Py.VStr _ => Raise TypeError
  end.

(** [elif v < n: return answer], then the rest of the chain. *)
Definition elif_lt (v : Py.value) (n : Z) (answer : string)
    (rest : result (option string)) : result (option string) :=
  b <- lt v n ;; if b : bool then Ok (Some answer) else rest.

(** [AuditLogAction.target_type]. *)
Definition target_type (self : EnumValue) : result (option string) :=
  let v := value self in
  if Py.eqb v (Py.VInt (-1)) then Ok (Some "all")
  else
    elif_lt v 10 "guild" (
    elif_lt v 20 "channel" (
    elif_lt v 30 "user" (
    elif_lt v 40 "role" (
    elif_lt v 50 "invite" (
    elif_lt v 60 "webhook" (
    elif_lt v 70 "emoji" (
    if Py.eqb v (Py.VInt 73) then Ok (Some "channel")
    else
      elif_lt v 80 "message" (
      elif_lt v 83 "integration" (
      elif_lt v 90 "stage_instance" (
      elif_lt v 93 "sticker" (
      elif_lt v 113 "thread" (Ok None)))))))))))).

End EnumOps.

(** ** threads.py: further methods *)

Module ThreadOps.
Import Threads.

(** [Thread.delete_messages]: the calls of [state._delete_messages]
    it makes. *)
Definition delete_messages {Message : Type} (channel_id : Z)
    (messages : list Message) : list (Z * list Message) :=
  if (length messages =? 0)%nat then []
  else [(channel_id, messages)].

(** The keys [Thread._from_data] reads with [data[...]], in the order
    it reads them, and whether the payload has them. *)
Definition required_keys (data : ThreadPayload) : list (string * bool) :=
  [ ("id", bool_decide (is_Some (d_id data)));
    ("parent_id", bool_decide (is_Some (d_parent_id data)));
    ("owner_id", bool_decide (is_Some (d_owner_id data)));
    ("name", bool_decide (is_Some (d_name data)));
    ("type", bool_decide (is_Some (d_type data)));
    ("message_count", bool_decide (is_Some (d_message_count data)));
    ("member_count", bool_decide (is_Some (d_member_count data)));
    ("member_ids_preview", bool_decide (is_Some (d_member_ids_preview data)));
    ("thread_metadata", bool_decide (is_Some (d_thread_metadata data))) ].

(** The loop [for m in members: self._add_member(m)] of
    [Thread.fetch_members]. *)
Definition add_members `{U : Utils} (state : ConnectionState)
    (members : list ThreadMember) (t : Thread) : Thread :=
  fold_left (fun t m => _add_member state m t) members t.

End ThreadOps.

(** ** More concrete data *)

Module SampleMore.
Import Threads Sample.

(** A complete payload for thread 100; its [member] object has
    neither [user_id] nor [id]. *)
Definition full_payload : ThreadPayload :=
  mkThreadPayload (Some 100) (Some 10) (Some 7) (Some "release-notes")
    (Some (Py.VInt 11)) (Some 555) None (Some 3) (Some 2) (Some [7])
    (Some (mkThreadMetadata true 1440 "2022-01-10T00:00:00" None None None))
    (Some (mkThreadMemberPayload None None (Some "2022-01-09T00:00:00") (Some 0)
             None None)).

(** A payload for thread 100 that lacks [name], [message_count] and
    [thread_metadata]. *)
Definition payload_without_name : ThreadPayload :=
  mkThreadPayload (Some 100) (Some 10) (Some 7) None
    (Some (Py.VInt 11)) (Some 555) None None (Some 2) (Some [7]) None None.

(** The record of the local user, user 42, in thread 100. *)
Definition built_member : ThreadMember :=
  mkThreadMember 42 100 (Some "2022-01-09T00:00:00") (Some 0).

(** The thread [Thread(...)] builds from [full_payload] for the
    connection of user 42. *)
Definition built_thread : Thread :=
  mkThread "release-notes" 100 Sample.guild1
    (Enums.mkEnumValue "public_thread" (Py.VInt 11))
    {[ 42 := built_member ]}
    7 10 (Some 555) 3 2 0 false true true 1440
    (Some "2022-01-10T00:00:00") [7] None.

End SampleMore.

(** ** tracking.py: [Tracking] *)

Module Tracking.

(** A section of the tracking payload, [{'consented': bool}]; the key
    may be missing. *)
Record ConsentSection : Type := mkConsentSection {
  consented : option bool
}.

(** The payload of the tracking endpoint, by section. *)
Record TrackingPayload : Type := mkTrackingPayload {
  d_personalization : option ConsentSection;
  d_usage_statistics : option ConsentSection
}.

Record Tracking : Type := mkTracking {
  personalization : bool;
  usage_statistics : bool
}.

(** [data.get(key, {}).get('consented', False)]. *)
Definition get_consented (section : option ConsentSection) : bool :=
  default false (consented (default (mkConsentSection None) section)).

(** [Tracking._update]. *)
Definition _update (data : TrackingPayload) (self : Tracking) : Tracking :=
  mkTracking (get_consented (d_personalization data))
    (get_consented (d_usage_statistics data)).

(** [Tracking.__bool__]: [any({...})]. *)
Definition __bool__ (self : Tracking) : bool :=
  personalization self || usage_statistics self.

(** [v is True] and [v is False]. *)
Definition is_True (v : Py.value) : bool :=
  match v with
  | Py.VBool true => true
  | _ => false
  end.

Definition is_False (v : Py.value) : bool :=
  match v with
  | Py.VBool false => true
  | _ => false
  end.

(** The payload [Tracking.edit] sends. *)
Record EditPayload : Type := mkEditPayload {
  grant : list string;
  revoke : list string
}.

Definition edit_payload (kwargs : list (string * Py.value)) : EditPayload :=
  mkEditPayload
    (List.filter (fun kv => is_True kv.2) kwargs).*1
    (List.filter (fun kv => is_False kv.2) kwargs).*1.

(** [Tracking.edit] with its keyword arguments: the request sent, the object after the
    call and what the call returns; [edit_tracking] is the answer of
    the REST endpoint. *)
Definition edit (edit_tracking : EditPayload -> result TrackingPayload)
    (self : Tracking) (kwargs : list (string * Py.value))
    : EditPayload * Tracking * result unit :=
  let payload := edit_payload kwargs in
  match edit_tracking payload with
  | Raise e => (payload, self, Raise e)
  | Ok data => (payload, _update data self, Ok tt)
  end.

End Tracking.

(** * Properties *)

(** ** Python equality on scalars is an equivalence *)

Module PyFacts.

Lemma eqb_norm (x y : Py.value) : Py.eqb x y = true <-> Py.norm x = Py.norm y.
Proof.
  destruct x as [|[]|a|a], y as [|[]|b|b];
    cbn [Py.eqb Py.norm Py.int_of_bool Bool.eqb];
    rewrite ?Z.eqb_eq, ?String.eqb_eq; split; intros H;
    try done; try congruence; try (by inversion H).
Qed.

Lemma eqb_refl (x : Py.value) : Py.eqb x x = true.
Proof. by apply eqb_norm. Qed.

Lemma eqb_trans_r (a b c : Py.value) :
  Py.eqb a c = true -> Py.eqb b c = true -> Py.eqb a b = true.
Proof. rewrite !eqb_norm. congruence. Qed.

Lemma eqb_congr_l (a b c : Py.value) :
  Py.eqb a b = true -> Py.eqb a c = Py.eqb b c.
Proof.
  intros Hab. apply eqb_norm in Hab. apply Bool.eq_true_iff_eq.
  rewrite !eqb_norm. split; congruence.
Qed.

Lemma eqb_congr_r (a b c : Py.value) :
  Py.eqb a b = true -> Py.eqb c a = Py.eqb c b.
Proof.
  intros Hab. apply eqb_norm in Hab. apply Bool.eq_true_iff_eq.
  rewrite !eqb_norm. split; congruence.
Qed.

(** Equal keys read the same entry. *)
Lemma get_congr {V} (d : list (Py.value * V)) k k' :
  Py.eqb k k' = true -> Py.get Py.eqb d k = Py.get Py.eqb d k'.
Proof.
  intros Hk. induction d as [|[k0 v0] d IH]; simpl; [done|].
  by rewrite (eqb_congr_r k k' k0), IH.
Qed.

(** Reading a dictionary after a write under a key that was absent. *)
Lemma get_set_fresh {V} (d : list (Py.value * V)) k v k' :
  Py.get Py.eqb d k = None ->
  Py.get Py.eqb (Py.set Py.eqb d k v) k'
  = if Py.eqb k k' then Some v else Py.get Py.eqb d k'.
Proof.
  induction d as [|[k0 v0] d IH]; simpl; [done|].
  destruct (Py.eqb k0 k) eqn:Hk0; [done|]. intros Hd. simpl.
  rewrite (IH Hd). destruct (Py.eqb k0 k') eqn:Hk0'; [|done].
  destruct (Py.eqb k k') eqn:Hkk'; [|done].
  rewrite (eqb_trans_r k0 k k') in Hk0; done.
Qed.

End PyFacts.

(** ** The enum metaclass and [try_enum] *)

Module EnumFacts.
Import Enums.

(** A round of [EnumMeta.__new__] on an item that declares no member. *)
Lemma new_step_value_map (cls : EnumClass) (item : string * attribute) (val : Py.value) :
  Py.get Py.eqb (_enum_value_map_ (new_step cls item)) val
  = match Py.get Py.eqb (_enum_value_map_ cls) val with
    | Some m => Some m
    | None => canonical_member [item] val
    end.
Proof.
  destruct item as [key a]. unfold new_step, canonical_member, member_declarations.
  simpl. destruct a as [v| |]; simpl.
  - destruct (starts_with_underscore key); simpl.
    { by destruct (Py.get _ _ val). }
    destruct (Py.get Py.eqb (_enum_value_map_ cls) v) as [m|] eqn:Hv; simpl.
    + destruct (Py.eqb v val) eqn:Hvv; simpl.
      * by rewrite <- (PyFacts.get_congr _ v val), Hv.
      * by destruct (Py.get _ _ val).
    + rewrite PyFacts.get_set_fresh by done.
      destruct (Py.eqb v val) eqn:Hvv; simpl.
      * by rewrite <- (PyFacts.get_congr _ v val), Hv.
      * by destruct (Py.get _ _ val).
  - rewrite andb_false_r. by destruct (Py.get _ _ val).
  - rewrite andb_false_r. by destruct (Py.get _ _ val).
Qed.

Lemma canonical_member_cons item attrs val :
  canonical_member (item :: attrs) val
  = match canonical_member [item] val with
    | Some m => Some m
    | None => canonical_member attrs val
    end.
Proof.
  unfold canonical_member, member_declarations. simpl.
  destruct item as [key [v| |]]; simpl; try done.
  destruct (starts_with_underscore key); simpl; [done|].
  by destruct (Py.eqb v val).
Qed.

(** The value map of a finished class reads, under [val], the first
    declared member whose value equals [val]. *)
Lemma fold_value_map attrs (cls : EnumClass) (val : Py.value) :
  Py.get Py.eqb (_enum_value_map_ (fold_left new_step attrs cls)) val
  = match Py.get Py.eqb (_enum_value_map_ cls) val with
    | Some m => Some m
    | None => canonical_member attrs val
    end.
Proof.
  revert cls. induction attrs as [|item attrs IH]; intros cls; simpl.
  - by destruct (Py.get _ _ val).
  - rewrite IH, (canonical_member_cons item attrs), new_step_value_map.
    destruct (Py.get Py.eqb (_enum_value_map_ cls) val); [done|].
    by destruct (canonical_member [item] val).
Qed.

Lemma try_enum_eq name attrs val :
  try_enum (EnumMeta_new name attrs) val
  = Ok (match canonical_member attrs val with
        | Some member => member
        | None => mkEnumValue ("unknown_" +:+ Py.str val) val
        end).
Proof.
  unfold try_enum, value_map_getitem, EnumMeta_new.
  rewrite fold_value_map. simpl.
  by destruct (canonical_member attrs val).
Qed.

Lemma canonical_member_Some attrs val m :
  canonical_member attrs val = Some m ->
  (name m, value m) ∈ member_declarations attrs /\ Py.eqb (value m) val = true.
Proof.
  unfold canonical_member. intros H.
  destruct (List.find _ _) as [[k v]|] eqn:Hf; [|done].
  simpl in H. injection H as <-. simpl.
  apply find_some in Hf as [Hin Heq]. split; [|done].
  by apply list_elem_of_In.
Qed.

Lemma canonical_member_None attrs val :
  (forall key v, (key, v) ∈ member_declarations attrs -> Py.eqb v val = false) ->
  canonical_member attrs val = None.
Proof.
  unfold canonical_member. intros H.
  destruct (List.find _ _) as [[k v]|] eqn:Hf; [|done].
  apply find_some in Hf as [Hin Heq]. simpl in Heq.
  apply list_elem_of_In in Hin. by rewrite (H _ _ Hin) in Heq.
Qed.

Lemma canonical_member_is_Some attrs val key v :
  (key, v) ∈ member_declarations attrs -> Py.eqb v val = true ->
  is_Some (canonical_member attrs val).
Proof.
  unfold canonical_member. intros Hin Heq.
  destruct (List.find _ _) as [d|] eqn:Hf; [by eexists|].
  apply list_elem_of_In in Hin.
  pose proof (find_none _ _ Hf _ Hin) as Hn. simpl in Hn. congruence.
Qed.

(** C9. [try_enum] never raises on a class built by the metaclass.
    When [val] equals the value of a declared member, the result is the
    canonical member for that value: the first declared member whose
    value equals [val], as stored in the value map. When no declared
    member has a value equal to [val], the result is a proxy whose name
    is [unknown_] followed by [str(val)] and whose value is [val]
    itself. *)
Theorem try_enum_total_canonical_or_unknown
    (name : string) (attrs : list (string * attribute)) (val : Py.value) :
  let cls := EnumMeta_new name attrs in
  (exists m, try_enum cls val = Ok m) /\
  (forall key v,
      (key, v) ∈ member_declarations attrs -> Py.eqb v val = true ->
      exists m, try_enum cls val = Ok m
                /\ canonical_member attrs val = Some m
                /\ Py.get Py.eqb (_enum_value_map_ cls) val = Some m
                /\ (Enums.name m, value m) ∈ member_declarations attrs
                /\ Py.eqb (value m) val = true) /\
  ((forall key v, (key, v) ∈ member_declarations attrs -> Py.eqb v val = false) ->
   try_enum cls val = Ok (mkEnumValue ("unknown_" +:+ Py.str val) val)).
Proof.
  intros cls. subst cls. rewrite try_enum_eq. split; [by eexists|]. split.
  - intros key v Hin Heq.
    destruct (canonical_member_is_Some _ _ _ _ Hin Heq) as [m Hm].
    exists m. rewrite Hm. split; [done|]. split; [done|]. split.
    + unfold EnumMeta_new. rewrite fold_value_map. by simpl.
    + by apply canonical_member_Some.
  - intros Hnone. by rewrite canonical_member_None.
Qed.

(** [ChannelType]: a known value and an unknown one. *)
Lemma try_enum_total_canonical_or_unknown_witness :
  try_enum ChannelType (Py.VInt 11) = Ok (mkEnumValue "public_thread" (Py.VInt 11)) /\
  try_enum ChannelType (Py.VInt 99) = Ok (mkEnumValue "unknown_99" (Py.VInt 99)).
Proof.
  split.
  - destruct (try_enum_total_canonical_or_unknown "ChannelType"
                [ ("__module__", Plain (Py.VStr "discord.enums"));
                  ("__qualname__", Plain (Py.VStr "ChannelType"));
                  ("text", Plain (Py.VInt 0));
                  ("private", Plain (Py.VInt 1));
                  ("voice", Plain (Py.VInt 2));
                  ("group", Plain (Py.VInt 3));
                  ("category", Plain (Py.VInt 4));
                  ("news", Plain (Py.VInt 5));
                  ("store", Plain (Py.VInt 6));
                  ("news_thread", Plain (Py.VInt 10));
                  ("public_thread", Plain (Py.VInt 11));
                  ("private_thread", Plain (Py.VInt 12));
                  ("stage_voice", Plain (Py.VInt 13));
                  ("__str__", Descriptor);
                  ("__int__", Descriptor) ] (Py.VInt 11)) as (_ & Hknown & _).
    destruct (Hknown "public_thread" (Py.VInt 11)) as (m & Hm & Hc & _).
    + vm_compute. do 8 right. left.
    + reflexivity.
    + vm_compute in Hc. injection Hc as <-. exact Hm.
  - pose proof (try_enum_total_canonical_or_unknown "ChannelType"
                [ ("__module__", Plain (Py.VStr "discord.enums"));
                  ("__qualname__", Plain (Py.VStr "ChannelType"));
                  ("text", Plain (Py.VInt 0));
                  ("private", Plain (Py.VInt 1));
                  ("voice", Plain (Py.VInt 2));
                  ("group", Plain (Py.VInt 3));
                  ("category", Plain (Py.VInt 4));
                  ("news", Plain (Py.VInt 5));
                  ("store", Plain (Py.VInt 6));
                  ("news_thread", Plain (Py.VInt 10));
                  ("public_thread", Plain (Py.VInt 11));
                  ("private_thread", Plain (Py.VInt 12));
                  ("stage_voice", Plain (Py.VInt 13));
                  ("__str__", Descriptor);
                  ("__int__", Descriptor) ] (Py.VInt 99)) as (_ & _ & Hunknown).
    apply Hunknown. intros key v Hin.
    vm_compute in Hin.
    repeat (apply elem_of_cons in Hin as [Hin|Hin]; [by injection Hin as -> ->|]).
    by apply elem_of_nil in Hin.
Defined.

(** [True == 1]: a boolean reads the member declared with 1. *)
Example try_enum_bool :
  try_enum ChannelType (Py.VBool true) = Ok (mkEnumValue "private" (Py.VInt 1)).
Proof. reflexivity. Qed.

Example try_enum_negative :
  try_enum ChannelType (Py.VInt (-5)) = Ok (mkEnumValue "unknown_-5" (Py.VInt (-5))).
Proof. vm_compute. reflexivity. Qed.

End EnumFacts.

(** ** The member map of a thread *)

Module MemberFacts.
Import Threads.

Section WithUtils.
Context `{U : Utils}.

Lemma set_members_id (t : Thread) : set_members (_members t) t = t.
Proof. by destruct t. Qed.

Lemma members_set_members m (t : Thread) : _members (set_members m t) = m.
Proof. done. Qed.

(** C8. [_pop_member] is [dict.pop(member_id, None)]: it cannot raise.
    For an id that is not in the member map it returns [None] and
    leaves the thread, hence the member map, as it was; for an id that
    is in the map it returns the record stored there and the map loses
    exactly that entry. *)
Theorem pop_member_absent_none_present_record (t : Thread) (member_id : Z) :
  (_members t !! member_id = None ->
   _pop_member member_id t = (t, None)) /\
  (forall m, _members t !! member_id = Some m ->
     (_pop_member member_id t).2 = Some m /\
     _members (_pop_member member_id t).1 = delete member_id (_members t)).
Proof.
  unfold _pop_member. split.
  - by intros ->.
  - by intros m ->.
Qed.

Lemma add_member_lookup state member (t : Thread) (user_id : Z) :
  _members (_add_member state member t) !! user_id
  = if bool_decide (member_id member = user_id /\ user_id <> self_id state)
    then Some member
    else _members t !! user_id.
Proof.
  unfold _add_member.
  destruct (member_id member =? self_id state)%Z eqn:Hself; simpl.
  - apply Z.eqb_eq in Hself. rewrite bool_decide_eq_false_2; [done|]. lia.
  - apply Z.eqb_neq in Hself. destruct (decide (member_id member = user_id)) as [Heq|Hne].
    + rewrite bool_decide_eq_true_2 by (split; [done|congruence]).
      rewrite Heq. apply lookup_insert_eq.
    + rewrite bool_decide_eq_false_2 by tauto. by apply lookup_insert_ne.
Qed.

(** A record the generic path, or a removal, leaves under the local
    user's id was there before. *)
Lemma apply_op_self state (t : Thread) op r :
  _members (apply_op state t op) !! self_id state = Some r ->
  _members t !! self_id state = Some r \/
  (op = op_me_setter r /\ member_id r = self_id state).
Proof.
  destruct op as [member|member_id|member]; simpl.
  - rewrite add_member_lookup. rewrite bool_decide_eq_false_2 by tauto. auto.
  - unfold _pop_member. destruct (_members t !! member_id) eqn:Hm; simpl; [|auto].
    destruct (decide (member_id = self_id state)) as [->|Hne].
    + by rewrite lookup_delete_eq.
    + rewrite lookup_delete_ne by done. auto.
  - destruct (decide (member_id member = self_id state)) as [Heq|Hne].
    + rewrite Heq, lookup_insert_eq. intros [= ->]. auto.
    + rewrite lookup_insert_ne by done. auto.
Qed.

(** C6. The generic member-add path never stores the local user's own
    record: [_add_member] of a record whose id is the local user's id
    leaves the thread (hence the member map) unchanged. Over every
    sequence of writes to the member map (generic adds, removals and
    assignments to [me]), a record found under the local user's id at
    the end was either there at the start or was put there by an
    assignment to [me], the dedicated path. *)
Theorem self_record_only_through_me state (t : Thread) :
  (forall member, member_id member = self_id state ->
     _add_member state member t = t) /\
  (forall ops r,
     _members (fold_left (apply_op state) ops t) !! self_id state = Some r ->
     _members t !! self_id state = Some r \/
     (op_me_setter r ∈ ops /\ member_id r = self_id state)).
Proof.
  split.
  - intros member Hself. unfold _add_member.
    by rewrite Hself, Z.eqb_refl.
  - intros ops. revert t. induction ops as [|op ops IH]; intros t r; simpl; [auto|].
    intros Hend. apply IH in Hend as [Hmid|[Hin Hid]].
    + apply apply_op_self in Hmid as [Hstart|[-> Hid]]; [auto|].
      right. split; [apply elem_of_cons; by left|done].
    + right. split; [apply elem_of_cons; by right|done].
Qed.

End WithUtils.

Lemma pop_member_absent_none_present_record_witness :
  _pop_member 8 Sample.thread100 = (Sample.thread100, None) /\
  (_pop_member 7 Sample.thread100).2 = Some Sample.member7 /\
  _members (_pop_member 7 Sample.thread100).1 = delete 7 (_members Sample.thread100).
Proof.
  destruct (pop_member_absent_none_present_record Sample.thread100 8) as [Habsent _].
  destruct (pop_member_absent_none_present_record Sample.thread100 7) as [_ Hpresent].
  split.
  - apply Habsent. reflexivity.
  - apply Hpresent. reflexivity.
Defined.

(** The local user is user 42: a generic add of its record changes
    nothing, an assignment to [me] stores it. *)
Lemma self_record_only_through_me_witness :
  _add_member Sample.silent Sample.myself Sample.thread100 = Sample.thread100 /\
  (_members Sample.thread100 !! 42 = Some Sample.myself \/
   (op_me_setter Sample.myself
      ∈ [op_add_member Sample.myself; op_me_setter Sample.myself; op_pop_member 7]
    /\ member_id Sample.myself = 42)).
Proof.
  destruct (self_record_only_through_me Sample.silent Sample.thread100) as [Hadd Hseq].
  split.
  - apply Hadd. reflexivity.
  - apply (Hseq [op_add_member Sample.myself; op_me_setter Sample.myself; op_pop_member 7]).
    reflexivity.
Defined.

End MemberFacts.

(** ** [Thread.fetch_members] *)

Module FetchFacts.
Import Threads.

Section WithUtils.
Context `{U : Utils}.


(** The call waits only once the parent channel has been resolved. *)
Lemma fetch_members_waits_iff state (t : Thread) :
  ws_wait_for "thread_member_list_update" (id t) 15 ∈ log (fetch_members state t)
  <-> is_Some (parent t).
Proof.
  unfold fetch_members. destruct (parent t) as [channel|] eqn:Hp.
  - split; [by eexists|]. intros _.
    destruct (wait_for _ _ _) as [data|]; simpl.
    + destruct (io_map _ _) as [w' [ms|e]]; simpl;
        rewrite !elem_of_cons; auto.
    + rewrite !elem_of_cons; auto.
  - simpl. split; [by intros ?%elem_of_nil|by intros [? ?]].
Qed.

(** A call that raises leaves the thread as it was. *)
Lemma fetch_members_raise_frame state (t : Thread) e :
  returned (fetch_members state t) = Raise e -> final (fetch_members state t) = t.
Proof.
  unfold fetch_members. destruct (parent t) as [channel|]; [|done].
  destruct (wait_for _ _ _) as [data|]; [|done].
  destruct (io_map _ _) as [w' [ms|e']]; done.
Qed.


(** Building the records of a response whose list has an entry that is
    not null fails: the dictionary handed to [ThreadMember] has the
    key [member] only. *)
Lemma io_map_member_key_error state (t : Thread) channel
    (entries : list (option MemberPayload)) mdata :
  parent t = Some channel ->
  Some mdata ∈ entries ->
  exists w,
    io_map (fun member =>
              ThreadMember_new state t
                (mkThreadMemberPayload None None None None member None))
           entries
    = (w, Raise (KeyError "user_id")).
Proof.
  intros Hp. induction entries as [|entry entries IH]; [by intros ?%elem_of_nil|].
  intros Hin. simpl. unfold ThreadMember_new at 1. simpl.
  destruct entry as [md|]; simpl.
  - rewrite Hp. simpl. by eexists.
  - apply elem_of_cons in Hin as [Hin|Hin]; [done|].
    destruct (IH Hin) as [w Hw]. rewrite Hw. simpl. by eexists.
Qed.

(** Every answered call whose response lists at least one member
    raises [KeyError] and stores nothing. *)
Lemma fetch_members_answered_key_error state (t : Thread) channel data mdata :
  parent t = Some channel ->
  wait_for state (fun d => (ev_thread_id d =? id t)%Z) 15 = Some data ->
  Some mdata ∈ ev_members data ->
  returned (fetch_members state t) = Raise (KeyError "user_id")
  /\ final (fetch_members state t) = t.
Proof.
  intros Hp Hw Hin. unfold fetch_members. rewrite Hp, Hw.
  destruct (io_map_member_key_error state t channel _ _ Hp Hin) as [w ->].
  done.
Qed.

End WithUtils.



(** C5 on the code: the gateway answers the request of thread 100
    with a list of one member, user 8. The call raises [KeyError]
    instead of returning, and user 8 is not in the member map. *)
Theorem fetch_members_response_key_error :
  let o := fetch_members (Sample.state_with [Sample.event_for_200; Sample.event_for_100])
             Sample.thread100 in
  wait_for (Sample.state_with [Sample.event_for_200; Sample.event_for_100])
    (fun d => (ev_thread_id d =? id Sample.thread100)%Z) 15
  = Some Sample.event_for_100
  /\ returned o = Raise (KeyError "user_id")
  /\ final o = Sample.thread100
  /\ _members (final o) !! 8 = None.
Proof. vm_compute. done. Qed.

End FetchFacts.

(** ** [Thread.purge] *)

Module PurgeFacts.
Import Threads.

Section Loop.
Context {Message : Type} (channel_id : Z) (check : Message -> bool).

Lemma submitted_snoc (calls : list (Z * list Message)) c batch :
  submitted (calls ++ [(c, batch)]) = submitted calls ++ batch.
Proof. unfold submitted. rewrite map_app, concat_app. simpl. by rewrite app_nil_r. Qed.

(** [l[-n:]] for a positive [n] not above the length: the last [n]. *)
Lemma slice_from_neg (l : list Message) (n : Z) :
  (0 < n <= Z.of_nat (length l))%Z ->
  slice_from (- n) l = drop (length l - Z.to_nat n) l.
Proof.
  intros Hn. unfold slice_from.
  replace (- n <? 0)%Z with true by (symmetry; apply Z.ltb_lt; lia).
  f_equal. lia.
Qed.

(** [l[-0:]] is [l[0:]]: the whole list. *)
Lemma slice_from_zero (l : list Message) : slice_from (- 0) l = l.
Proof. done. Qed.

Lemma loop_inv_step seen s message :
  loop_inv check seen s ->
  loop_inv check (seen ++ [message]) (purge_step channel_id check s message).
Proof.
  intros [Hret Hcount Hlen Hdel]. unfold purge_step.
  set (s1 := if (count s =? 50)%Z then _ else s).
  assert (ret s1 = ret s /\ (0 <= count s1 <= 49)%Z
          /\ (count s1 <= Z.of_nat (length (ret s)))%Z
          /\ submitted (deleted s1)
             = take (length (ret s) - Z.to_nat (count s1)) (ret s))
    as (Hret1 & Hcount1 & Hlen1 & Hdel1).
  { subst s1. destruct (count s =? 50)%Z eqn:Hfull; cbn [ret count deleted].
    - apply Z.eqb_eq in Hfull. repeat split; try lia.
      rewrite submitted_snoc, Hdel, Hfull.
      pose proof (slice_from_neg (ret s) 50 ltac:(lia)) as Hslice.
      change (- (50))%Z with (-50)%Z in Hslice. rewrite Hslice.
      rewrite take_drop, Nat.sub_0_r. by rewrite take_ge.
    - apply Z.eqb_neq in Hfull. repeat split; try done; lia. }
  assert (List.filter check (seen ++ [message])
          = List.filter check seen ++ (if check message then [message] else []))
    as Hfilter by (rewrite List.filter_app; simpl; by destruct (check message)).
  destruct (check message) eqn:Hcheck; rewrite ?app_nil_r in Hfilter;
    simpl; split; cbn [ret count deleted]; rewrite ?Hfilter.
  - by rewrite Hret1, Hret.
  - lia.
  - rewrite Hret1, length_app. simpl. lia.
  - rewrite Hdel1, Hret1, length_app. simpl.
    replace (length (ret s) + 1 - Z.to_nat (count s1 + 1))%nat
      with (length (ret s) - Z.to_nat (count s1))%nat by lia.
    rewrite take_app_le by lia. done.
  - by rewrite Hret1.
  - lia.
  - by rewrite Hret1.
  - by rewrite Hret1.
Qed.

Lemma loop_inv_fold history seen s :
  loop_inv check seen s ->
  loop_inv check (seen ++ history) (fold_left (purge_step channel_id check) history s).
Proof.
  revert seen s. induction history as [|message history IH]; intros seen s Hs; simpl.
  - by rewrite app_nil_r.
  - replace (seen ++ message :: history) with ((seen ++ [message]) ++ history)
      by (by rewrite <- app_assoc).
    apply IH. by apply loop_inv_step.
Qed.

Lemma loop_inv_init : loop_inv check [] (mkPurgeState [] 0 []).
Proof. split; simpl; try done; lia. Qed.

(** What [purge] hands to [state._delete_messages] over all flushes:
    the matching messages once when the last counter is positive, and
    twice over when the last counter is zero. *)
Lemma purge_submitted history :
  let s := fold_left (purge_step channel_id check) history (mkPurgeState [] 0 []) in
  (purge channel_id (Some check) history).2 = List.filter check history /\
  submitted (purge channel_id (Some check) history).1
  = if (count s =? 0)%Z
    then List.filter check history ++ List.filter check history
    else List.filter check history.
Proof.
  intros s. pose proof (loop_inv_fold history [] _ loop_inv_init) as Hinv.
  simpl in Hinv. fold s in Hinv. destruct Hinv as [Hret Hcount Hlen Hdel].
  unfold purge. fold s. simpl. split; [done|].
  rewrite submitted_snoc, Hdel.
  destruct (count s =? 0)%Z eqn:Hzero.
  - apply Z.eqb_eq in Hzero. rewrite Hzero, slice_from_zero. simpl.
    rewrite Nat.sub_0_r, take_ge by done. by rewrite Hret.
  - apply Z.eqb_neq in Hzero.
    rewrite slice_from_neg by lia. rewrite take_drop. done.
Qed.

End Loop.

(** C10 on the code: a history of 51 messages, numbered 1 to 51, of
    which [check] accepts the first 50 and rejects the last. The 50
    accepted messages are handed to [state._delete_messages] by the
    flush at the 51st round and again, all of them, by the final
    flush, whose slice [ret[-count:]] is the whole of [ret] when
    [count] is 0. *)
Theorem purge_resubmits_full_batch :
  let history := Z.of_nat <$> seq 1 51 in
  let first50 := Z.of_nat <$> seq 1 50 in
  purge 100 (Some (fun m => (m <=? 50)%Z)) history
  = ([(100, first50); (100, first50)], first50).
Proof. vm_compute. reflexivity. Qed.

End PurgeFacts.

(** ** [Thread.edit] *)

Module EditFacts.
Import Threads.

Section WithUtils.
Context `{U : Utils}.

Lemma ThreadMember_new_no_http state (t : Thread) data :
  forallb (fun e => negb (is_http_edit e)) (ThreadMember_new state t data).1 = true.
Proof.
  unfold ThreadMember_new. destruct (p_member data); [|done].
  destruct (parent t); [|done].
  destruct (p_user_id data); simpl; [|done].
  by destruct (bool_decide _).
Qed.

Lemma Thread_new_no_http state guild data :
  forallb (fun e => negb (is_http_edit e)) (Thread_new state guild data).1 = true.
Proof.
  unfold Thread_new. destruct (_from_data_slots guild data) as [t|e]; [|done].
  destruct (d_member data) as [member|]; [|done].
  unfold io_bind. pose proof (ThreadMember_new_no_http state t member) as Hm.
  destruct (ThreadMember_new state t member) as [w [m|e]]; simpl in *.
  - by rewrite app_nil_r.
  - done.
Qed.

(** C2, as the code has it. [Thread.edit] does not look at the
    [archived] flag of the thread: whatever the thread and the
    arguments, its first action is the HTTP edit request for the
    thread's id, carrying exactly the supplied fields, and it sends no
    other HTTP request; when the server refuses the request, the call
    raises the server's error. Refusing an edit of an archived thread
    is left to the server. *)
Theorem edit_sends_request_whatever_archived state (t : Thread) (args : EditArgs) :
  exists w r,
    edit state t args
    = (http_edit_channel (id t) (edit_payload args) (arg_reason args) :: w, r)
    /\ forallb (fun e => negb (is_http_edit e)) w = true
    /\ match http_edit_channel_answer state (id t) (edit_payload args) (arg_reason args) with
       | Raise e => w = [] /\ r = Raise e
       | Ok data => (w, r) = Thread_new state (guild t) data
       end.
Proof.
  unfold edit, io_bind, io_tell.
  destruct (http_edit_channel_answer _ _ _ _) as [data|e]; simpl.
  - pose proof (Thread_new_no_http state (guild t) data) as Hn.
    destruct (Thread_new state (guild t) data) as [w r]. by exists w, r.
  - by exists [], (Raise e).
Qed.

End WithUtils.

(** C2 fails on the code: thread 100 is archived, the edit only
    renames it (it does not unarchive), and the HTTP edit request is
    sent all the same. *)
Lemma edit_archived_thread_sends_request :
  archived Sample.thread100 = true /\
  arg_archived Sample.rename_only = None /\
  (edit Sample.silent Sample.thread100 Sample.rename_only).1
  = [ http_edit_channel 100
        (mkEditPayload (Some "renamed") None None None None None) None ].
Proof. vm_compute. done. Qed.

End EditFacts.

(** ** [Thread._update] *)

Module UpdateFacts.
Import Threads.

(** The names the comparison of [_update] goes through: the slots
    whose name has none of [member], [guild], [state], [count]. *)
Lemma compared_attrs_eq :
  compared_attrs
  = [ "name"; "id"; "_type"; "owner_id"; "parent_id"; "last_message_id";
      "slowmode_delay"; "locked"; "archived"; "invitable";
      "auto_archive_duration"; "archive_timestamp"; "_created_at" ].
Proof. reflexivity. Qed.

Section WithUtils.
Context `{U : Utils}.

(** The slots [_update] never assigns. *)
Lemma update_assign_frame data (t : Thread) :
  id (_update_assign data t) = id t /\
  guild (_update_assign data t) = guild t /\
  _type (_update_assign data t) = _type t /\
  _members (_update_assign data t) = _members t /\
  owner_id (_update_assign data t) = owner_id t /\
  parent_id (_update_assign data t) = parent_id t.
Proof.
  unfold _update_assign, _get_as_snowflake.
  destruct (d_thread_metadata data), (d_name data), (d_last_message_id data),
    (d_message_count data), (d_member_count data), (d_member_ids_preview data);
    done.
Qed.

(** The slots [_update] assigns from the top-level keys. *)
Lemma update_assign_top data (t : Thread) :
  name (_update_assign data t) = default (name t) (d_name data) /\
  last_message_id (_update_assign data t)
  = match d_last_message_id data with
    | Some i => Some i
    | None => last_message_id t
    end /\
  message_count (_update_assign data t) = default (message_count t) (d_message_count data) /\
  member_count (_update_assign data t) = default (member_count t) (d_member_count data) /\
  _member_ids (_update_assign data t) = default (_member_ids t) (d_member_ids_preview data) /\
  slowmode_delay (_update_assign data t) = default 0 (d_rate_limit_per_user data).
Proof.
  unfold _update_assign, _get_as_snowflake.
  destruct (d_thread_metadata data), (d_name data), (d_last_message_id data),
    (d_message_count data), (d_member_count data), (d_member_ids_preview data);
    done.
Qed.

(** The slots [_update] assigns from [thread_metadata]. *)
Lemma update_assign_metadata data (t : Thread) :
  match d_thread_metadata data with
  | None =>
      archived (_update_assign data t) = archived t /\
      auto_archive_duration (_update_assign data t) = auto_archive_duration t /\
      archive_timestamp (_update_assign data t) = archive_timestamp t /\
      _created_at (_update_assign data t) = _created_at t /\
      locked (_update_assign data t) = locked t /\
      invitable (_update_assign data t) = invitable t
  | Some meta =>
      archived (_update_assign data t) = md_archived meta /\
      auto_archive_duration (_update_assign data t) = md_auto_archive_duration meta /\
      archive_timestamp (_update_assign data t)
      = parse_time (Some (md_archive_timestamp meta)) /\
      _created_at (_update_assign data t) = parse_time (md_creation_timestamp meta) /\
      locked (_update_assign data t) = default false (md_locked meta) /\
      invitable (_update_assign data t) = default true (md_invitable meta)
  end.
Proof.
  unfold _update_assign, _get_as_snowflake.
  destruct (d_thread_metadata data), (d_name data), (d_last_message_id data),
    (d_message_count data), (d_member_count data), (d_member_ids_preview data);
    done.
Qed.

Lemma update_fst data (t : Thread) : (_update data t).1 = _update_assign data t.
Proof. unfold _update. by destruct (existsb _ _). Qed.

(** The comparison of [_update], slot by slot. *)
Lemma existsb_compared (self old : Thread) :
  existsb (fun attr => getattr_ne self old attr) compared_attrs
  = (ne (SStr (name self)) (SStr (name old))
     || ne (SInt (id self)) (SInt (id old))
     || ne (SEnum (_type self)) (SEnum (_type old))
     || ne (SInt (owner_id self)) (SInt (owner_id old))
     || ne (SInt (parent_id self)) (SInt (parent_id old))
     || ne (SOptInt (last_message_id self)) (SOptInt (last_message_id old))
     || ne (SInt (slowmode_delay self)) (SInt (slowmode_delay old))
     || ne (SBool (locked self)) (SBool (locked old))
     || ne (SBool (archived self)) (SBool (archived old))
     || ne (SBool (invitable self)) (SBool (invitable old))
     || ne (SInt (auto_archive_duration self)) (SInt (auto_archive_duration old))
     || ne (STime (archive_timestamp self)) (STime (archive_timestamp old))
     || (ne (STime (_created_at self)) (STime (_created_at old)) || false))%bool.
Proof. rewrite compared_attrs_eq. cbn [existsb]. by rewrite !orb_assoc. Qed.

Lemma ne_refl (a : slot_value) : ne a a = false.
Proof.
  destruct a; simpl; rewrite ?String.eqb_refl, ?Z.eqb_refl, ?PyFacts.eqb_refl,
    ?bool_decide_eq_true_2; by try destruct b.
Qed.

Lemma ne_str x y : ne (SStr x) (SStr y) = false <-> x = y.
Proof. simpl. rewrite negb_false_iff. apply String.eqb_eq. Qed.

Lemma ne_int x y : ne (SInt x) (SInt y) = false <-> x = y.
Proof. simpl. rewrite negb_false_iff. apply Z.eqb_eq. Qed.

Lemma ne_optint x y : ne (SOptInt x) (SOptInt y) = false <-> x = y.
Proof. simpl. rewrite negb_false_iff. apply bool_decide_eq_true. Qed.

Lemma ne_bool x y : ne (SBool x) (SBool y) = false <-> x = y.
Proof. simpl. rewrite negb_false_iff. apply Bool.eqb_true_iff. Qed.

Lemma ne_time x y : ne (STime x) (STime y) = false <-> x = y.
Proof. simpl. rewrite negb_false_iff. apply bool_decide_eq_true. Qed.

Lemma compared_false_iff (self old : Thread) :
  _type self = _type old ->
  existsb (fun attr => getattr_ne self old attr) compared_attrs = false
  <-> same_observable self old.
Proof.
  intros Htype. rewrite existsb_compared, !orb_false_iff.
  rewrite !ne_str, !ne_int, !ne_optint, !ne_bool, !ne_time.
  rewrite Htype, ne_refl. unfold same_observable. rewrite Htype. tauto.
Qed.

Lemma same_observable_refl (t : Thread) : same_observable t t.
Proof. by repeat split. Qed.

Lemma update_snd_none_iff data (t : Thread) :
  (_update data t).2 = None <-> same_observable (_update_assign data t) t.
Proof.
  pose proof (compared_false_iff (_update_assign data t) t) as Hiff.
  destruct Hiff as [Hto Hfrom]; [apply update_assign_frame|].
  unfold _update.
  destruct (existsb (fun attr => getattr_ne (_update_assign data t) t attr) compared_attrs)
    eqn:Hany; simpl.
  - split; [done|]. intros Hsame. apply Hfrom in Hsame. congruence.
  - split; [|done]. intros _. by apply Hto.
Qed.

Lemma Thread_ext (a b : Thread) :
  name a = name b -> id a = id b -> guild a = guild b -> _type a = _type b ->
  _members a = _members b -> owner_id a = owner_id b -> parent_id a = parent_id b ->
  last_message_id a = last_message_id b -> message_count a = message_count b ->
  member_count a = member_count b -> slowmode_delay a = slowmode_delay b ->
  locked a = locked b -> archived a = archived b -> invitable a = invitable b ->
  auto_archive_duration a = auto_archive_duration b ->
  archive_timestamp a = archive_timestamp b -> _member_ids a = _member_ids b ->
  _created_at a = _created_at b -> a = b.
Proof. destruct a, b. simpl. intros. by subst. Qed.

(** Assigning from the same payload a second time changes nothing. *)
Lemma update_assign_idem data (t : Thread) :
  _update_assign data (_update_assign data t) = _update_assign data t.
Proof.
  pose proof (update_assign_frame data (_update_assign data t)) as Hframe.
  pose proof (update_assign_top data (_update_assign data t)) as Htop.
  pose proof (update_assign_metadata data (_update_assign data t)) as Hmeta.
  pose proof (update_assign_top data t) as Htop0.
  pose proof (update_assign_metadata data t) as Hmeta0.
  destruct Hframe as (? & ? & ? & ? & ? & ?).
  destruct Htop as (Hn & Hl & Hmc & Hmb & Hids & Hs).
  destruct Htop0 as (Hn0 & Hl0 & Hmc0 & Hmb0 & Hids0 & Hs0).
  apply Thread_ext; try done.
  - rewrite Hn, Hn0. by destruct (d_name data).
  - rewrite Hl, Hl0. by destruct (d_last_message_id data).
  - rewrite Hmc, Hmc0. by destruct (d_message_count data).
  - rewrite Hmb, Hmb0. by destruct (d_member_count data).
  - by rewrite Hs, Hs0.
  - destruct (d_thread_metadata data); destruct Hmeta as (?&?&?&?&?&?);
      destruct Hmeta0 as (?&?&?&?&?&?); congruence.
  - destruct (d_thread_metadata data); destruct Hmeta as (?&?&?&?&?&?);
      destruct Hmeta0 as (?&?&?&?&?&?); congruence.
  - destruct (d_thread_metadata data); destruct Hmeta as (?&?&?&?&?&?);
      destruct Hmeta0 as (?&?&?&?&?&?); congruence.
  - destruct (d_thread_metadata data); destruct Hmeta as (?&?&?&?&?&?);
      destruct Hmeta0 as (?&?&?&?&?&?); congruence.
  - destruct (d_thread_metadata data); destruct Hmeta as (?&?&?&?&?&?);
      destruct Hmeta0 as (?&?&?&?&?&?); congruence.
  - rewrite Hids, Hids0. by destruct (d_member_ids_preview data).
  - destruct (d_thread_metadata data); destruct Hmeta as (?&?&?&?&?&?);
      destruct Hmeta0 as (?&?&?&?&?&?); congruence.
Qed.

(** C3, as the code has it. After [_update]: the slots [name],
    [last_message_id], [message_count], [member_count] and the
    member-id preview take the value of their key when the payload
    has it and keep their prior value when it has not; the metadata
    slots keep their prior values when the payload has no
    [thread_metadata]; [id], [guild], [_type], [_members], [owner_id]
    and [parent_id] always keep their prior values. The slowmode delay
    does not follow that rule: it becomes the value of
    [rate_limit_per_user], and 0 when the key is absent. Nor do the
    optional metadata: when [thread_metadata] is present, [locked]
    becomes [False], [invitable] [True] and the creation time the
    parse of a missing timestamp, whenever their key is absent from
    it. *)
Theorem update_merges_present_keys_with_defaults data (t : Thread) :
  let t' := (_update data t).1 in
  (id t' = id t /\ guild t' = guild t /\ _type t' = _type t /\
   _members t' = _members t /\ owner_id t' = owner_id t /\
   parent_id t' = parent_id t) /\
  (name t' = default (name t) (d_name data) /\
   last_message_id t'
   = match d_last_message_id data with
     | Some i => Some i
     | None => last_message_id t
     end /\
   message_count t' = default (message_count t) (d_message_count data) /\
   member_count t' = default (member_count t) (d_member_count data) /\
   _member_ids t' = default (_member_ids t) (d_member_ids_preview data)) /\
  slowmode_delay t' = default 0 (d_rate_limit_per_user data) /\
  match d_thread_metadata data with
  | None =>
      archived t' = archived t /\
      auto_archive_duration t' = auto_archive_duration t /\
      archive_timestamp t' = archive_timestamp t /\
      _created_at t' = _created_at t /\
      locked t' = locked t /\
      invitable t' = invitable t
  | Some meta =>
      archived t' = md_archived meta /\
      auto_archive_duration t' = md_auto_archive_duration meta /\
      archive_timestamp t' = parse_time (Some (md_archive_timestamp meta)) /\
      _created_at t' = parse_time (md_creation_timestamp meta) /\
      locked t' = default false (md_locked meta) /\
      invitable t' = default true (md_invitable meta)
  end.
Proof.
  intros t'. subst t'. rewrite update_fst.
  pose proof (update_assign_frame data t) as Hframe.
  pose proof (update_assign_top data t) as Htop.
  pose proof (update_assign_metadata data t) as Hmeta.
  split; [done|]. split; [tauto|]. split; [tauto|]. done.
Qed.

(** C4. [_update] returns no old snapshot exactly when the thread
    after the call agrees with the thread before it on every compared
    slot; the compared slots are those of [__slots__] whose name
    contains none of [member], [guild], [state], [count], that is the
    thirteen listed. A snapshot that is returned is the thread before
    the call. In particular a call after which the thread differs
    from the one before at most in [message_count], [member_count]
    and the member-id preview returns no snapshot. *)
Theorem update_diff_empty_iff_no_observable_change data (t : Thread) :
  compared_attrs
  = [ "name"; "id"; "_type"; "owner_id"; "parent_id"; "last_message_id";
      "slowmode_delay"; "locked"; "archived"; "invitable";
      "auto_archive_duration"; "archive_timestamp"; "_created_at" ] /\
  ((_update data t).2 = None <-> same_observable (_update data t).1 t) /\
  (forall old, (_update data t).2 = Some old -> old = t) /\
  (forall message_count member_count member_ids,
     (_update data t).1
     = set_message_count message_count
         (set_member_count member_count (set_member_ids member_ids t)) ->
     (_update data t).2 = None).
Proof.
  split; [apply compared_attrs_eq|]. split; [|split].
  - rewrite update_fst. apply update_snd_none_iff.
  - intros old. unfold _update. by destruct (existsb _ _); intros [= <-].
  - intros mc mb ids Heq. apply update_snd_none_iff.
    rewrite <- update_fst, Heq. by repeat split.
Qed.

(** C7. Applying the same payload a second time, right after the
    first, returns no old snapshot. *)
Theorem update_twice_empty_diff data (t : Thread) :
  (_update data (_update data t).1).2 = None.
Proof.
  apply update_snd_none_iff. rewrite update_fst, update_assign_idem.
  apply same_observable_refl.
Qed.

End WithUtils.

(** The payload carries new counters and a new member-id preview and
    repeats the slowmode of the thread: no snapshot is returned,
    although the counters have changed. *)
Lemma update_diff_empty_iff_no_observable_change_witness :
  (_update Sample.counters_only Sample.thread100).2 = None /\
  message_count (_update Sample.counters_only Sample.thread100).1 = 4 /\
  message_count Sample.thread100 = 3.
Proof.
  pose proof (update_diff_empty_iff_no_observable_change
                Sample.counters_only Sample.thread100) as (_ & _ & _ & Hcounters).
  split.
  - apply (Hcounters 4 3 [7; 8]). reflexivity.
  - split; reflexivity.
Defined.

(** C3 fails on the code: a payload without any key resets the
    slowmode delay of 5 seconds to 0, and a payload whose metadata
    lacks the [locked] key unlocks a locked thread. *)
Lemma update_absent_keys_reset_slots :
  d_rate_limit_per_user Sample.empty_payload = None /\
  slowmode_delay Sample.thread100 = 5 /\
  slowmode_delay (_update Sample.empty_payload Sample.thread100).1 = 0 /\
  (md_locked <$> d_thread_metadata Sample.metadata_only) = Some None /\
  locked Sample.thread100 = true /\
  locked (_update Sample.metadata_only Sample.thread100).1 = false.
Proof. vm_compute. done. Qed.

End UpdateFacts.

(** ** The class protocol of [EnumMeta] *)

Module EnumOpsFacts.
Import Enums EnumOps.

Lemma str_get_set_eq {V} (d : list (string * V)) k v :
  Py.get String.eqb (Py.set String.eqb d k v) k = Some v.
Proof.
  induction d as [|[k0 v0] d IH]; simpl.
  - by rewrite String.eqb_refl.
  - destruct (String.eqb k0 k) eqn:Hk; simpl; by rewrite Hk.
Qed.

Lemma str_get_set_ne {V} (d : list (string * V)) k v k' :
  k <> k' ->
  Py.get String.eqb (Py.set String.eqb d k v) k' = Py.get String.eqb d k'.
Proof.
  intros Hne. induction d as [|[k0 v0] d IH]; simpl.
  - by apply String.eqb_neq in Hne as ->.
  - destruct (String.eqb k0 k) eqn:Hk; simpl.
    + apply String.eqb_eq in Hk as ->. by apply String.eqb_neq in Hne as ->.
    + by rewrite IH.
Qed.

(** What an item of the class body declares. *)
Lemma elem_of_member_declarations attrs key v :
  (key, v) ∈ member_declarations attrs
  <-> (key, Plain v) ∈ attrs /\ starts_with_underscore key = false.
Proof.
  unfold member_declarations. rewrite list_elem_of_omap. split.
  - intros ([k a] & Hin & Hf). simpl in Hf. destruct a as [w| |]; try done.
    destruct (starts_with_underscore k) eqn:Hu; [done|].
    by injection Hf as -> ->.
  - intros [Hin Hu]. exists (key, Plain v). split; [done|]. simpl. by rewrite Hu.
Qed.

(** A round of the metaclass loop writes the member map under the
    key of its item only. *)
Lemma new_step_member_map_ne cls item key :
  item.1 <> key ->
  Py.get String.eqb (_enum_member_map_ (new_step cls item)) key
  = Py.get String.eqb (_enum_member_map_ cls) key.
Proof.
  destruct item as [k a]. simpl. intros Hne. unfold new_step.
  destruct (starts_with_underscore k && negb (_is_descriptor a)); [done|].
  destruct a as [v| |]; try done.
  destruct (Py.get Py.eqb (_enum_value_map_ cls) v); simpl;
    by rewrite str_get_set_ne.
Qed.

Lemma fold_member_map_frame attrs cls key :
  key ∉ attrs.*1 ->
  Py.get String.eqb (_enum_member_map_ (fold_left new_step attrs cls)) key
  = Py.get String.eqb (_enum_member_map_ cls) key.
Proof.
  revert cls. induction attrs as [|item attrs IH]; intros cls Hnotin; simpl; [done|].
  rewrite fmap_cons in Hnotin. apply not_elem_of_cons in Hnotin as [Hne Hnotin].
  rewrite IH by done. apply new_step_member_map_ne. congruence.
Qed.

(** The round that meets a member declaration binds its key to the
    entry of the value map for its value. *)
Lemma new_step_member_hit cls key v :
  starts_with_underscore key = false ->
  exists m,
    Py.get String.eqb (_enum_member_map_ (new_step cls (key, Plain v))) key = Some m
    /\ Py.get Py.eqb (_enum_value_map_ (new_step cls (key, Plain v))) v = Some m.
Proof.
  intros Hu. unfold new_step. rewrite Hu. simpl.
  destruct (Py.get Py.eqb (_enum_value_map_ cls) v) as [m|] eqn:Hv; simpl.
  - exists m. by rewrite str_get_set_eq.
  - exists (mkEnumValue key v). rewrite str_get_set_eq. split; [done|].
    rewrite PyFacts.get_set_fresh by done. by rewrite PyFacts.eqb_refl.
Qed.

Lemma fold_member_resolves attrs cls key v :
  NoDup attrs.*1 ->
  (key, v) ∈ member_declarations attrs ->
  exists m,
    Py.get String.eqb (_enum_member_map_ (fold_left new_step attrs cls)) key = Some m
    /\ Py.get Py.eqb (_enum_value_map_ (fold_left new_step attrs cls)) v = Some m.
Proof.
  revert cls. induction attrs as [|item attrs IH]; intros cls Hnd Hin.
  { by apply elem_of_nil in Hin. }
  rewrite fmap_cons in Hnd. apply NoDup_cons in Hnd as [Hfresh Hnd].
  apply elem_of_member_declarations in Hin as [Hin Hu].
  apply elem_of_cons in Hin as [<-|Hin]; cbn [fold_left].
  - destruct (new_step_member_hit cls key v Hu) as (m & Hm & Hv).
    exists m. split.
    + by rewrite fold_member_map_frame.
    + rewrite EnumFacts.fold_value_map. by rewrite Hv.
  - apply IH; [done|]. by apply elem_of_member_declarations.
Qed.

(** A key that declares no member is not in the member map. *)
Lemma fold_member_map_undeclared attrs cls key :
  key ∉ (member_declarations attrs).*1 ->
  Py.get String.eqb (_enum_member_map_ (fold_left new_step attrs cls)) key
  = Py.get String.eqb (_enum_member_map_ cls) key.
Proof.
  revert cls. induction attrs as [|[k a] attrs IH]; intros cls Hnotin; cbn [fold_left]; [done|].
  assert (key ∉ (member_declarations attrs).*1) as Htail.
  { intros Hin. apply Hnotin. unfold member_declarations in *. simpl.
    destruct a as [w| |]; simpl; try done.
    destruct (starts_with_underscore k); simpl; [done|].
    apply elem_of_cons. by right. }
  rewrite (IH _ Htail).
  destruct (decide (k = key)) as [->|Hne];
    [|by apply (new_step_member_map_ne cls (k, a) key)].
  unfold new_step. destruct a as [w| |]; simpl; rewrite ?andb_false_r; try done.
  destruct (starts_with_underscore key) eqn:Hu; simpl; [done|].
  exfalso. apply Hnotin. unfold member_declarations. simpl. rewrite Hu. simpl.
  apply elem_of_cons. by left.
Qed.

(** X1. On a class built by the metaclass, [cls(value)], [try_enum] and
    [Enum.try_value] read the same entry: for a value equal to that
    of a declared member all three give the canonical member; for any
    other value [cls(value)] raises [ValueError] (never [KeyError]),
    [try_value] hands the value back and [try_enum] builds the
    [unknown_] proxy. *)
Theorem call_try_enum_try_value_agree
    (name : string) (attrs : list (string * attribute)) (val : Py.value) :
  let cls := EnumMeta_new name attrs in
  match canonical_member attrs val with
  | Some m =>
      __call__ cls val = Ok m /\ try_enum cls val = Ok m
      /\ try_value cls val = Ok (inl m)
  | None =>
      __call__ cls val = Raise ValueError
      /\ try_enum cls val = Ok (mkEnumValue ("unknown_" +:+ Py.str val) val)
      /\ try_value cls val = Ok (inr val)
  end.
Proof.
  intros cls. subst cls.
  unfold __call__, try_value, try_enum, value_map_getitem, EnumMeta_new.
  rewrite EnumFacts.fold_value_map. simpl.
  by destruct (canonical_member attrs val).
Qed.

(** X2. In a class whose body binds each name once, every declared
    name, alias or not, resolves through [cls[key]] to the canonical
    member of its value, the object [cls(value)] returns; a name that
    declares no member raises [KeyError]. *)
Theorem getitem_resolves_to_canonical
    (name : string) (attrs : list (string * attribute)) (key : string) :
  NoDup attrs.*1 ->
  let cls := EnumMeta_new name attrs in
  (forall v, (key, v) ∈ member_declarations attrs ->
     exists m, __getitem__ cls key = Ok m
               /\ __call__ cls v = Ok m
               /\ canonical_member attrs v = Some m
               /\ Py.eqb (value m) v = true) /\
  (key ∉ (member_declarations attrs).*1 -> __getitem__ cls key = Raise (KeyError key)).
Proof.
  intros Hnd cls. subst cls. split.
  - intros v Hin.
    destruct (fold_member_resolves attrs (mkEnumClass name [] [] []) key v Hnd Hin)
      as (m & Hm & Hv).
    exists m. unfold __getitem__, __call__, value_map_getitem, EnumMeta_new.
    rewrite Hm, Hv. split; [done|]. split; [done|].
    rewrite EnumFacts.fold_value_map in Hv. simpl in Hv. split; [done|].
    by apply EnumFacts.canonical_member_Some in Hv as [_ ?].
  - intros Hnotin. unfold __getitem__, EnumMeta_new.
    by rewrite fold_member_map_undeclared.
Qed.

(** [DefaultAvatar]: the alias [gray] resolves to the member [grey]. *)
Lemma getitem_resolves_to_canonical_witness :
  __getitem__ DefaultAvatar "gray" = Ok (mkEnumValue "grey" (Py.VInt 1)) /\
  __call__ DefaultAvatar (Py.VInt 1) = Ok (mkEnumValue "grey" (Py.VInt 1)) /\
  __getitem__ DefaultAvatar "__str__" = Raise (KeyError "__str__").
Proof.
  assert (NoDup DefaultAvatar_attrs.*1) as Hnd by (apply (bool_decide_unpack _); by vm_compute).
  destruct (getitem_resolves_to_canonical "DefaultAvatar" DefaultAvatar_attrs "gray" Hnd)
    as [Hdecl _].
  destruct (getitem_resolves_to_canonical "DefaultAvatar" DefaultAvatar_attrs "__str__" Hnd)
    as [_ Hundecl].
  destruct (Hdecl (Py.VInt 1)) as (m & Hget & Hcall & Hcan & _).
  { vm_compute. do 2 right. left. }
  vm_compute in Hcan. injection Hcan as <-.
  split; [exact Hget|]. split; [exact Hcall|].
  apply Hundecl. apply (bool_decide_unpack _). by vm_compute.
Defined.

(** Writing a dictionary under a key it does not hold appends. *)
Lemma set_fresh_app {V} (d : list (Py.value * V)) k x :
  Py.get Py.eqb d k = None -> Py.set Py.eqb d k x = d ++ [(k, x)].
Proof.
  induction d as [|[k0 v0] d IH]; simpl; [done|].
  destruct (Py.eqb k0 k); [done|]. intros Hd. by rewrite IH.
Qed.

Lemma get_None_norm {V} (d : list (Py.value * V)) k :
  Py.get Py.eqb d k = None ->
  Py.norm k ∉ (fun e : Py.value * V => Py.norm e.1) <$> d.
Proof.
  induction d as [|[k0 v0] d IH]; simpl; [intros _; apply not_elem_of_nil|].
  destruct (Py.eqb k0 k) eqn:Hk; [done|]. intros Hd.
  apply not_elem_of_cons. split; [|by apply IH].
  intros Heq. symmetry in Heq. apply PyFacts.eqb_norm in Heq. congruence.
Qed.

Lemma get_Some_elem_of {V} (d : list (Py.value * V)) k x :
  Py.get Py.eqb d k = Some x -> exists k', (k', x) ∈ d.
Proof.
  induction d as [|[k0 v0] d IH]; simpl; [done|].
  destruct (Py.eqb k0 k).
  - intros [= ->]. exists k0. apply elem_of_cons. by left.
  - intros Hd. destruct (IH Hd) as [k' Hk']. exists k'. apply elem_of_cons. by right.
Qed.

(** In a dictionary without equal keys, an item is what its key reads. *)
Lemma get_own_key {V} (d : list (Py.value * V)) k x :
  NoDup ((fun e : Py.value * V => Py.norm e.1) <$> d) ->
  (k, x) ∈ d -> Py.get Py.eqb d k = Some x.
Proof.
  induction d as [|[k0 v0] d IH]; [by intros _ ?%elem_of_nil|].
  rewrite fmap_cons. intros [Hfresh Hnd]%NoDup_cons [Heq|Hin]%elem_of_cons; simpl.
  - injection Heq as -> ->. by rewrite PyFacts.eqb_refl.
  - destruct (Py.eqb k0 k) eqn:Hk; [|by apply IH].
    exfalso. apply Hfresh. apply PyFacts.eqb_norm in Hk. simpl. rewrite Hk.
    apply (list_elem_of_fmap_2 (fun e : Py.value * V => Py.norm e.1) d (k, x) Hin).
Qed.

Lemma class_inv_step seen cls item :
  class_inv seen cls -> item.1 ∉ seen -> class_inv (item.1 :: seen) (new_step cls item).
Proof.
  intros [Hnames Hbound Hseen Hdistinct Hvalue] Hfresh.
  assert (class_inv (item.1 :: seen) cls) as Hskip.
  { split; try done. intros k Hk. apply elem_of_cons. right. by apply Hseen. }
  destruct item as [key a]. simpl in *. unfold new_step.
  destruct (starts_with_underscore key && negb (_is_descriptor a)); [done|].
  destruct a as [v| |]; try done.
  assert (forall w m, (w, m) ∈ _enum_value_map_ cls -> name m <> key) as Hother.
  { intros w m Hin Heq. apply Hfresh, Hseen.
    rewrite <- Heq, (Hbound _ _ Hin). by eexists. }
  destruct (Py.get Py.eqb (_enum_value_map_ cls) v) as [m0|] eqn:Hv.
  - split; simpl; try done.
    + intros w m Hin. rewrite str_get_set_ne by (symmetry; by eapply Hother).
      by apply (Hbound w).
    + intros k Hk. apply elem_of_cons.
      destruct (decide (key = k)) as [->|Hne]; [by left|right].
      rewrite str_get_set_ne in Hk by done. by apply Hseen.
  - rewrite (set_fresh_app _ _ _ Hv). split; simpl.
    + by rewrite fmap_app, Hnames.
    + intros w m [Hin|Hin]%elem_of_app.
      * rewrite str_get_set_ne by (symmetry; by eapply Hother).
        by apply (Hbound w).
      * apply list_elem_of_singleton in Hin. injection Hin as -> ->. simpl.
        apply str_get_set_eq.
    + intros k Hk. apply elem_of_cons.
      destruct (decide (key = k)) as [->|Hne]; [by left|right].
      rewrite str_get_set_ne in Hk by done. by apply Hseen.
    + rewrite fmap_app. apply NoDup_app. split; [done|]. split.
      * intros x Hx [->|Hnil]%elem_of_cons; [|by apply elem_of_nil in Hnil].
        by apply get_None_norm in Hv.
      * apply NoDup_singleton.
    + intros w m [Hin|Hin]%elem_of_app; [by apply Hvalue|].
      apply list_elem_of_singleton in Hin. by injection Hin as -> ->.
Qed.

Lemma class_inv_fold attrs seen cls :
  class_inv seen cls -> NoDup attrs.*1 -> (forall k, k ∈ attrs.*1 -> k ∉ seen) ->
  exists seen', class_inv seen' (fold_left new_step attrs cls).
Proof.
  revert seen cls. induction attrs as [|item attrs IH]; intros seen cls Hinv Hnd Hfresh.
  { by exists seen. }
  rewrite fmap_cons in Hnd, Hfresh. apply NoDup_cons in Hnd as [Hhead Hnd].
  cbn [fold_left]. apply (IH (item.1 :: seen)); [|done|].
  - apply class_inv_step; [done|]. apply Hfresh. apply elem_of_cons. by left.
  - intros k Hk [->|Hin]%elem_of_cons; [done|].
    apply (Hfresh k); [apply elem_of_cons; by right|done].
Qed.

Lemma class_inv_new name attrs :
  NoDup attrs.*1 -> exists seen, class_inv seen (EnumMeta_new name attrs).
Proof.
  intros Hnd. apply (class_inv_fold attrs []); [|done|].
  - split; simpl; try done; try (by intros v m ?%elem_of_nil);
      try (by intros k [? ?]); try apply NoDup_nil_2.
  - intros k _. apply not_elem_of_nil.
Qed.

Lemma result_map_fmap {A B C} (f : B -> result C) (g : A -> B) (h : A -> C) (l : list A) :
  (forall a, a ∈ l -> f (g a) = Ok (h a)) ->
  EnumOps.result_map f (g <$> l) = Ok (h <$> l).
Proof.
  induction l as [|a l IH]; intros Hall; [done|].
  rewrite !fmap_cons. cbn [EnumOps.result_map].
  rewrite (Hall a) by (apply elem_of_cons; by left).
  rewrite IH; [done|]. intros b Hb. apply Hall. apply elem_of_cons. by right.
Qed.

(** Equal values have the same canonical member. *)
Lemma canonical_member_congr attrs a b :
  Py.eqb a b = true -> canonical_member attrs a = canonical_member attrs b.
Proof.
  intros Hab. unfold canonical_member. f_equal.
  induction (member_declarations attrs) as [|d l IH]; [done|]. cbn [List.find].
  by rewrite (PyFacts.eqb_congr_r a b d.2 Hab), IH.
Qed.

(** A round of the metaclass loop leaves the value map as it is, or
    appends the enum value of the declaration it meets. *)
Lemma new_step_value_map_app cls key a :
  _enum_value_map_ (new_step cls (key, a)) = _enum_value_map_ cls
  \/ exists v, a = Plain v /\ starts_with_underscore key = false
       /\ _enum_value_map_ (new_step cls (key, a))
          = _enum_value_map_ cls ++ [(v, declared_value (key, v))].
Proof.
  unfold new_step.
  destruct (starts_with_underscore key) eqn:Hu; destruct a as [v| |]; simpl; auto.
  destruct (Py.get Py.eqb (_enum_value_map_ cls) v) eqn:Hv; simpl; [by left|].
  right. exists v. by rewrite (set_fresh_app _ _ _ Hv).
Qed.

Lemma member_declarations_cons_sublist item attrs :
  member_declarations attrs `sublist_of` member_declarations (item :: attrs).
Proof.
  unfold member_declarations. cbn [omap list_omap].
  destruct item as [key [v| |]]; simpl; try done.
  destruct (starts_with_underscore key); [done|]. by apply sublist_cons.
Qed.

(** The value map lists enum values of declarations, in the order of
    the declarations. *)
Lemma fold_value_map_sublist attrs cls :
  exists l,
    (_enum_value_map_ (fold_left new_step attrs cls)).*2 = (_enum_value_map_ cls).*2 ++ l
    /\ l `sublist_of` declared_value <$> member_declarations attrs.
Proof.
  revert cls. induction attrs as [|[key a] attrs IH]; intros cls; cbn [fold_left].
  { exists []. by rewrite app_nil_r. }
  destruct (IH (new_step cls (key, a))) as (l & Heq & Hsub).
  destruct (new_step_value_map_app cls key a) as [Hsame|(v & -> & Hu & Happ)].
  - exists l. rewrite Heq, Hsame. split; [done|].
    etrans; [exact Hsub|]. apply fmap_sublist, member_declarations_cons_sublist.
  - exists (declared_value (key, v) :: l). rewrite Heq, Happ, fmap_app, <- app_assoc.
    split; [done|]. unfold member_declarations. cbn [omap list_omap]. simpl.
    rewrite Hu. rewrite fmap_cons. by apply sublist_skip.
Qed.

Lemma member_declarations_names_sublist attrs :
  (member_declarations attrs).*1 `sublist_of` attrs.*1.
Proof.
  induction attrs as [|[key a] attrs IH]; [done|].
  unfold member_declarations in *. cbn [omap list_omap]. rewrite fmap_cons. simpl.
  destruct a as [v| |]; simpl; try (by apply sublist_cons).
  destruct (starts_with_underscore key); [by apply sublist_cons|].
  rewrite fmap_cons. by apply sublist_skip.
Qed.

Lemma declared_values_NoDup attrs :
  NoDup attrs.*1 -> NoDup (declared_value <$> member_declarations attrs).
Proof.
  intros Hnd. apply (NoDup_fmap_1 name). rewrite <- list_fmap_compose.
  eapply sublist_NoDup; [exact Hnd|].
  erewrite list_fmap_ext; [apply member_declarations_names_sublist|].
  by intros i [key v] _.
Qed.

(** A sublist of a list without duplicates is the filter of that list
    by membership. *)
Lemma sublist_is_filter {A} (P : A -> Prop) `{!forall x, Decision (P x)} (l1 l2 : list A) :
  l1 `sublist_of` l2 -> NoDup l2 ->
  (forall x, x ∈ l1 <-> x ∈ l2 /\ P x) ->
  l1 = filter P l2.
Proof.
  induction 1 as [|x l1 l2 Hsub IH|x l1 l2 Hsub IH]; intros Hnd Hiff.
  - done.
  - apply NoDup_cons in Hnd as [Hfresh Hnd].
    assert (P x) as HP by (apply Hiff, elem_of_cons; by left).
    rewrite filter_cons_True by done. f_equal. apply IH; [done|].
    intros y. split.
    + intros Hy. split; [by apply (elem_of_sublist l1 l2)|].
      apply Hiff, elem_of_cons. by right.
    + intros [Hy HPy].
      assert (y ∈ x :: l1) as Hin.
      { apply Hiff. split; [|done]. apply elem_of_cons. by right. }
      apply elem_of_cons in Hin as [->|Hin]; done.
  - apply NoDup_cons in Hnd as [Hfresh Hnd].
    assert (~ P x) as HP.
    { intros HP. apply Hfresh. apply (elem_of_sublist l1 l2); [|done].
      apply Hiff. split; [|done]. apply elem_of_cons. by left. }
    rewrite filter_cons_False by done. apply IH; [done|].
    intros y. split.
    + intros Hy. split; [by apply (elem_of_sublist l1 l2)|]. by apply Hiff.
    + intros [Hy HPy]. apply Hiff. split; [|done]. apply elem_of_cons. by right.
Qed.

(** X3. In a class whose body binds each name once, iterating the
    class yields, without raising, exactly the canonical members in
    the order of their declaration: the iteration is the list of the
    declared enum values, in the order of the class body, with every
    declaration left out that is an alias (not the canonical member of
    its own value). Hence no two iterated members have equal values,
    a member is iterated exactly when it is the canonical member of
    some value, [reversed(cls)] yields the same members in reverse,
    and [len(cls)] is their number. *)
Theorem iter_yields_canonical_members (name : string) (attrs : list (string * attribute)) :
  NoDup attrs.*1 ->
  let cls := EnumMeta_new name attrs in
  exists ms,
    __iter__ cls = Ok ms
    /\ ms = filter (fun m => canonical_member attrs (value m) = Some m)
                   (declared_value <$> member_declarations attrs)
    /\ __reversed__ cls = Ok (reverse ms)
    /\ __len__ cls = length ms
    /\ NoDup ((fun m => Py.norm (value m)) <$> ms)
    /\ (forall m, m ∈ ms <-> exists val, canonical_member attrs val = Some m).
Proof.
  intros Hnd cls. destruct (class_inv_new name attrs Hnd) as [seen Hinv].
  fold cls in Hinv. destruct Hinv as [Hnames Hbound Hseen Hdistinct Hvalue].
  assert (forall m, m ∈ (_enum_value_map_ cls).*2
                    <-> exists val, canonical_member attrs val = Some m) as Hiff.
  { intros m. split.
    + intros ([v m'] & -> & Hin)%list_elem_of_fmap. simpl. exists v.
      pose proof (get_own_key _ _ _ Hdistinct Hin) as Hget.
      unfold cls, EnumMeta_new in Hget. by rewrite EnumFacts.fold_value_map in Hget.
    + intros [val Hcan].
      assert (Py.get Py.eqb (_enum_value_map_ cls) val = Some m) as Hget.
      { unfold cls, EnumMeta_new. by rewrite EnumFacts.fold_value_map. }
      apply get_Some_elem_of in Hget as [k Hk].
      apply (list_elem_of_fmap_2 snd _ (k, m) Hk). }
  exists ((_enum_value_map_ cls).*2). split; [|split; [|split; [|split; [|split]]]].
  - unfold __iter__. rewrite Hnames. apply result_map_fmap.
    intros [v m] Hin. unfold __getitem__. simpl. by rewrite (Hbound v m Hin).
  - destruct (fold_value_map_sublist attrs (mkEnumClass name [] [] [])) as (l & Heq & Hsub).
    simpl in Heq. fold (EnumMeta_new name attrs) in Heq. fold cls in Heq.
    rewrite Heq in Hiff |- *.
    apply sublist_is_filter; [done|by apply declared_values_NoDup|].
    intros m. rewrite Hiff. split.
    + intros [val Hcan].
      pose proof (EnumFacts.canonical_member_Some _ _ _ Hcan) as [Hdecl Heqv].
      split.
      * apply list_elem_of_fmap. exists (Enums.name m, value m).
        split; [by destruct m|done].
      * by rewrite (canonical_member_congr attrs _ _ Heqv).
    + intros [_ Hcan]. by exists (value m).
  - unfold __reversed__. rewrite Hnames, <- !fmap_reverse. apply result_map_fmap.
    intros [v m] Hin. apply (proj1 (elem_of_reverse _ _)) in Hin.
    unfold __getitem__. simpl. by rewrite (Hbound v m Hin).
  - unfold __len__. by rewrite Hnames, !length_fmap.
  - rewrite <- list_fmap_compose.
    erewrite list_fmap_ext; [exact Hdistinct|].
    intros i [v m] Hi. simpl. f_equal. apply (Hvalue v m).
    by apply list_elem_of_lookup_2 in Hi.
  - exact Hiff.
Qed.

(** [DefaultAvatar]: the six members are iterated in the order of the
    class body; the alias [gray], declared right after [grey] with
    the same value, is not. *)
Lemma iter_yields_canonical_members_witness :
  exists ms,
    __iter__ DefaultAvatar = Ok ms
    /\ ms = filter (fun m => canonical_member DefaultAvatar_attrs (value m) = Some m)
                   (declared_value <$> member_declarations DefaultAvatar_attrs)
    /\ __reversed__ DefaultAvatar = Ok (reverse ms)
    /\ __len__ DefaultAvatar = length ms
    /\ NoDup ((fun m => Py.norm (value m)) <$> ms)
    /\ (forall m, m ∈ ms <-> exists val, canonical_member DefaultAvatar_attrs val = Some m).
Proof.
  apply (iter_yields_canonical_members "DefaultAvatar" DefaultAvatar_attrs).
  apply (bool_decide_unpack _). by vm_compute.
Defined.

Example iter_DefaultAvatar :
  __iter__ DefaultAvatar
  = Ok [ mkEnumValue "blurple" (Py.VInt 0); mkEnumValue "grey" (Py.VInt 1);
         mkEnumValue "green" (Py.VInt 2); mkEnumValue "orange" (Py.VInt 3);
         mkEnumValue "red" (Py.VInt 4); mkEnumValue "pink" (Py.VInt 5) ].
Proof. reflexivity. Qed.

(** X4. [FriendFlags.to_dict] returns a dictionary exactly for the
    values of the declared members, and [FriendFlags._from_dict]
    reads that dictionary back as the canonical member of the value:
    the two are a round trip on the members. On any other value
    [to_dict] falls through and returns [None]. *)
Theorem friend_flags_dict_round_trip (self : EnumValue) :
  match to_dict self with
  | Some d =>
      exists m, canonical_member FriendFlags_attrs (value self) = Some m
                /\ _from_dict FriendFlags (FriendFlagsDict_items d) = Ok m
                /\ to_dict m = Some d
  | None => canonical_member FriendFlags_attrs (value self) = None
  end.
Proof.
  destruct self as [n v]. unfold to_dict. cbn [value].
  destruct v as [|[]|z|s]; try (vm_compute; by eauto).
  destruct (Z.eqb_spec z 0) as [->|H0]; [vm_compute; by eauto|].
  destruct (Z.eqb_spec z 1) as [->|H1]; [vm_compute; by eauto|].
  destruct (Z.eqb_spec z 2) as [->|H2]; [vm_compute; by eauto|].
  destruct (Z.eqb_spec z 3) as [->|H3]; [vm_compute; by eauto|].
  destruct (Z.eqb_spec z 4) as [->|H4]; [vm_compute; by eauto|].
  cbn [Py.eqb].
  rewrite (proj2 (Z.eqb_neq z 0)), (proj2 (Z.eqb_neq z 1)), (proj2 (Z.eqb_neq z 2)),
    (proj2 (Z.eqb_neq z 3)), (proj2 (Z.eqb_neq z 4)) by done.
  apply EnumFacts.canonical_member_None. intros key w Hin.
  apply (proj1 (elem_of_member_declarations _ _ _)) in Hin as [Hin _].
  unfold FriendFlags_attrs in Hin.
  repeat (apply elem_of_cons in Hin as [Hin|Hin];
          [first [done
                 |injection Hin as -> ->; cbn [Py.eqb];
                  first [done|apply Z.eqb_neq; lia]]|]).
  by apply elem_of_nil in Hin.
Qed.

(** X5. [AuditLogAction.category] finds an entry of its table for
    every declared action, and raises [KeyError] on each value
    [try_enum] does not know: the proxy of an unknown action is not a
    key of the table. *)
Theorem category_total_on_declared_only (val : Py.value) :
  match canonical_member AuditLogAction_attrs val with
  | Some m =>
      try_enum AuditLogAction val = Ok m /\ exists c, category m = Ok c
  | None =>
      try_enum AuditLogAction val = Ok (mkEnumValue ("unknown_" +:+ Py.str val) val)
      /\ category (mkEnumValue ("unknown_" +:+ Py.str val) val)
         = Raise (KeyError ("unknown_" +:+ Py.str val))
  end.
Proof.
  unfold AuditLogAction. rewrite EnumFacts.try_enum_eq.
  destruct (canonical_member AuditLogAction_attrs val) as [m|] eqn:Hcan.
  - split; [done|].
    apply EnumFacts.canonical_member_Some in Hcan as [Hin _].
    destruct m as [n v]. cbn [name value] in Hin.
    apply (proj1 (elem_of_member_declarations _ _ _)) in Hin as [Hin Hu].
    unfold AuditLogAction_attrs in Hin.
    repeat (apply elem_of_cons in Hin as [Hin|Hin];
            [first [done
                   |injection Hin as -> ->;
                    first [by vm_compute in Hu|vm_compute; by eexists]]|]).
    by apply elem_of_nil in Hin.
  - split; [done|]. by vm_compute.
Qed.

(** X6. [AuditLogAction.target_type] on an enum value: a value that
    is [None] or a string makes the comparison chain raise
    [TypeError]; an integer value has no target type ([None]) exactly
    when it is 113 or more, and every integer below 10 other than -1,
    negative ones included, is typed [guild]. *)
Theorem target_type_by_value (self : EnumValue) :
  match value self with
  | Py.VNone | Py.VStr _ => target_type self = Raise TypeError
  | Py.VBool _ => target_type self = Ok (Some "guild")
  | Py.VInt z =>
      (target_type self = Ok None <-> (113 <= z)%Z)
      /\ ((z < 113)%Z -> exists s, target_type self = Ok (Some s))
      /\ ((z < 10)%Z -> z <> (-1)%Z -> target_type self = Ok (Some "guild"))
  end.
Proof.
  destruct self as [n v]. unfold target_type. cbn [value].
  destruct v as [|[]|z|s]; try done.
  unfold elif_lt, lt. cbn [Py.eqb bind].
  destruct (Z.eqb_spec z (-1)) as [->|Hm1].
  { split; [split; [done|lia]|]. split; [intros _; by eexists|done]. }
  destruct (Z.ltb_spec z 10);
    [split; [split; [done|lia]|]; split; [intros _; by eexists|done]|].
  destruct (Z.ltb_spec z 20);
    [split; [split; [done|lia]|]; split; [intros _; by eexists|intros; lia]|].
  destruct (Z.ltb_spec z 30);
    [split; [split; [done|lia]|]; split; [intros _; by eexists|intros; lia]|].
  destruct (Z.ltb_spec z 40);
    [split; [split; [done|lia]|]; split; [intros _; by eexists|intros; lia]|].
  destruct (Z.ltb_spec z 50);
    [split; [split; [done|lia]|]; split; [intros _; by eexists|intros; lia]|].
  destruct (Z.ltb_spec z 60);
    [split; [split; [done|lia]|]; split; [intros _; by eexists|intros; lia]|].
  destruct (Z.ltb_spec z 70);
    [split; [split; [done|lia]|]; split; [intros _; by eexists|intros; lia]|].
  destruct (Z.eqb_spec z 73);
    [split; [split; [done|lia]|]; split; [intros _; by eexists|intros; lia]|].
  destruct (Z.ltb_spec z 80);
    [split; [split; [done|lia]|]; split; [intros _; by eexists|intros; lia]|].
  destruct (Z.ltb_spec z 83);
    [split; [split; [done|lia]|]; split; [intros _; by eexists|intros; lia]|].
  destruct (Z.ltb_spec z 90);
    [split; [split; [done|lia]|]; split; [intros _; by eexists|intros; lia]|].
  destruct (Z.ltb_spec z 93);
    [split; [split; [done|lia]|]; split; [intros _; by eexists|intros; lia]|].
  destruct (Z.ltb_spec z 113);
    [split; [split; [done|lia]|]; split; [intros _; by eexists|intros; lia]|].
  split; [split; [lia|done]|]. split; intros; lia.
Qed.

(** X16. Decoding is stable under a round trip through the value: what
    [try_enum] returns for a value has a value equal to it, and
    decoding that value again returns the same enum value, member or
    proxy. *)
Theorem try_enum_value_round_trip
    (name : string) (attrs : list (string * attribute)) (val : Py.value) (r : EnumValue) :
  try_enum (EnumMeta_new name attrs) val = Ok r ->
  try_enum (EnumMeta_new name attrs) (value r) = Ok r
  /\ Py.eqb (value r) val = true.
Proof.
  rewrite !EnumFacts.try_enum_eq.
  destruct (canonical_member attrs val) as [m|] eqn:Hcan; intros [= <-].
  - pose proof (EnumFacts.canonical_member_Some _ _ _ Hcan) as [_ Heq].
    split; [|done]. by rewrite (canonical_member_congr attrs _ _ Heq), Hcan.
  - cbn [value]. rewrite Hcan. split; [done|]. apply PyFacts.eqb_refl.
Qed.

(** [True] decodes to the member declared with 1, whose value decodes
    to the same member. *)
Lemma try_enum_value_round_trip_witness :
  try_enum ChannelType (value (mkEnumValue "private" (Py.VInt 1)))
  = Ok (mkEnumValue "private" (Py.VInt 1))
  /\ Py.eqb (value (mkEnumValue "private" (Py.VInt 1))) (Py.VBool true) = true.
Proof.
  apply (try_enum_value_round_trip "ChannelType" _ (Py.VBool true)).
  reflexivity.
Defined.

(** X17. In a class whose body binds each name once, every iterated
    member is found again by its value and by its name: [cls(m.value)]
    and [cls[m.name]] both return [m]. *)
Theorem iterated_member_round_trip
    (name : string) (attrs : list (string * attribute)) (ms : list EnumValue) (m : EnumValue) :
  NoDup attrs.*1 ->
  __iter__ (EnumMeta_new name attrs) = Ok ms ->
  m ∈ ms ->
  __call__ (EnumMeta_new name attrs) (value m) = Ok m
  /\ __getitem__ (EnumMeta_new name attrs) (Enums.name m) = Ok m.
Proof.
  intros Hnd Hiter Hin. destruct (class_inv_new name attrs Hnd) as [seen Hinv].
  set (cls := EnumMeta_new name attrs) in *.
  destruct Hinv as [Hnames Hbound Hseen Hdistinct Hvalue].
  assert (ms = (_enum_value_map_ cls).*2) as ->.
  { unfold __iter__ in Hiter. rewrite Hnames in Hiter.
    rewrite (result_map_fmap _ _ snd) in Hiter; [by injection Hiter|].
    intros [v m'] Hm'. unfold __getitem__. simpl. by rewrite (Hbound v m' Hm'). }
  apply list_elem_of_fmap in Hin as ([v m'] & -> & Hin). simpl.
  split.
  - unfold __call__, value_map_getitem.
    rewrite (Hvalue v m' Hin). by rewrite (get_own_key _ _ _ Hdistinct Hin).
  - unfold __getitem__. by rewrite (Hbound v m' Hin).
Qed.

Lemma iterated_member_round_trip_witness :
  __call__ DefaultAvatar (value (mkEnumValue "grey" (Py.VInt 1)))
  = Ok (mkEnumValue "grey" (Py.VInt 1))
  /\ __getitem__ DefaultAvatar (Enums.name (mkEnumValue "grey" (Py.VInt 1)))
     = Ok (mkEnumValue "grey" (Py.VInt 1)).
Proof.
  eapply (iterated_member_round_trip "DefaultAvatar" DefaultAvatar_attrs).
  - apply (bool_decide_unpack _). by vm_compute.
  - reflexivity.
  - do 1 right. left.
Defined.

End EnumOpsFacts.

(** ** Threads: the member map, construction and purge *)

Module ThreadOpsFacts.
Import Threads ThreadOps.

Section WithUtils.
Context `{U : Utils}.

Lemma add_member_set_members state m (t : Thread) :
  _add_member state m t = set_members (_members (_add_member state m t)) t.
Proof.
  unfold _add_member. destruct (negb _); [done|]. by destruct t.
Qed.

(** X7. The merge loop of [fetch_members] over a list of records:
    under every id other than the local user's the map ends with the
    last record of the list that has this id, or with what it held
    before when the list has none; the entry under the local user's
    id is never written; and no slot other than the member map
    changes. *)
Theorem add_members_last_wins state (ms : list ThreadMember) (t : Thread) (user_id : Z) :
  _members (add_members state ms t) !! user_id
  = (if bool_decide (user_id = self_id state) then _members t !! user_id
     else match last (List.filter (fun m => (member_id m =? user_id)%Z) ms) with
          | Some m => Some m
          | None => _members t !! user_id
          end)
  /\ add_members state ms t = set_members (_members (add_members state ms t)) t.
Proof.
  unfold add_members. revert t. induction ms as [|m ms IH]; intros t; cbn [fold_left].
  { split; [by destruct (bool_decide _)|by destruct t]. }
  destruct (IH (_add_member state m t)) as [Hlook Hframe]. split.
  - rewrite Hlook, MemberFacts.add_member_lookup. cbn [List.filter].
    destruct (decide (user_id = self_id state)) as [Hself|Hself].
    + rewrite !bool_decide_eq_true_2 by done.
      rewrite bool_decide_eq_false_2; [done|]. by intros [_ ?].
    + rewrite (bool_decide_eq_false_2 (user_id = self_id state)) by done.
      destruct (member_id m =? user_id)%Z eqn:Hid.
      * apply Z.eqb_eq in Hid. rewrite bool_decide_eq_true_2 by done.
        rewrite last_cons. by destruct (last _).
      * apply Z.eqb_neq in Hid. rewrite bool_decide_eq_false_2; [done|]. by intros [? _].
  - rewrite Hframe at 1. rewrite (add_member_set_members state m t). by destruct t.
Qed.

(** X8. Removing a record right after the generic add stored it gives
    the record back and leaves the map without its id; when the id
    was not in the map before the add, the thread is back to what it
    was. *)
Theorem pop_after_add_round_trip state (m : ThreadMember) (t : Thread) :
  member_id m <> self_id state ->
  (_pop_member (member_id m) (_add_member state m t)).2 = Some m
  /\ _members (_pop_member (member_id m) (_add_member state m t)).1
     = delete (member_id m) (_members t)
  /\ (_members t !! member_id m = None ->
      (_pop_member (member_id m) (_add_member state m t)).1 = t).
Proof.
  intros Hne. unfold _add_member.
  apply Z.eqb_neq in Hne. rewrite Hne. cbn [negb].
  unfold _pop_member. cbn [_members set_members].
  rewrite lookup_insert_eq. cbn [fst snd _members set_members].
  rewrite delete_insert_eq. split; [done|]. split; [done|].
  intros Hnone. rewrite delete_id by done. by destruct t.
Qed.

(** The records [fetch_members] builds, when it builds them all, carry
    the local user's id: a response entry that is not null makes the
    construction raise. *)
Lemma io_map_built_records_are_self state (t : Thread)
    (entries : list (option MemberPayload)) w ms :
  io_map (fun member =>
            ThreadMember_new state t
              (mkThreadMemberPayload None None None None member None))
         entries
  = (w, Ok ms) ->
  Forall (fun m => member_id m = self_id state) ms.
Proof.
  revert w ms. induction entries as [|entry entries IH]; intros w ms; cbn [io_map].
  { unfold io_ret. intros [= <- <-]. constructor. }
  unfold ThreadMember_new at 1. cbn [p_member p_user_id p_id p_join_timestamp p_flags].
  destruct entry as [mdata|].
  - destruct (parent t); cbn [getitem]; unfold io_raise, io_bind; by intros [=].
  - unfold io_ret at 1. unfold io_bind at 1.
    destruct (io_map _ entries) as [w' [ms'|e]] eqn:Hrest; cbn.
    + intros [= <- <-]. constructor; [done|]. by eapply IH.
    + by intros [=].
Qed.

Lemma add_members_self_only state (ms : list ThreadMember) (t : Thread) :
  Forall (fun m => member_id m = self_id state) ms -> add_members state ms t = t.
Proof.
  unfold add_members. induction 1 as [|m ms Hm _ IH]; cbn [fold_left]; [done|].
  unfold _add_member at 2. rewrite Hm, Z.eqb_refl. exact IH.
Qed.

(** X9. [fetch_members] never changes the thread, whatever the gateway
    delivers: it either raises, or every entry of the response was
    null and each record it built carries the local user's id, which
    [_add_member] skips. When it returns, it returns the member list
    the thread had before the call. *)
Theorem fetch_members_never_changes_thread state (t : Thread) :
  final (fetch_members state t) = t
  /\ (forall l, returned (fetch_members state t) = Ok l -> l = members t).
Proof.
  unfold fetch_members. destruct (parent t) as [channel|]; [|done].
  destruct (wait_for _ _ _) as [data|]; [|done].
  destruct (io_map _ _) as [w' [ms|e]] eqn:Hmap; [|done].
  cbn [final returned].
  apply io_map_built_records_are_self in Hmap.
  pose proof (add_members_self_only state ms t Hmap) as Hsame.
  unfold add_members in Hsame. rewrite Hsame. split; [done|]. by intros l [= <-].
Qed.

Lemma find_filter_head {A} (f : A -> bool) (l : list A) :
  List.find f l = head (List.filter f l).
Proof.
  induction l as [|a l IH]; [done|]. cbn [List.find List.filter].
  by destruct (f a).
Qed.

(** X10. The outcome of [fetch_members] depends on the connection only
    through the local user's id and the first delivered event, within
    the timeout of 15, whose thread id is this thread's: events of
    other threads, later events and the REST side play no part. *)
Theorem fetch_members_reads_first_correlated_event (s1 s2 : ConnectionState) (t : Thread) :
  self_id s1 = self_id s2 ->
  head (List.filter (fun d => (ev_thread_id d =? id t)%Z) (ws_incoming s1 15))
  = head (List.filter (fun d => (ev_thread_id d =? id t)%Z) (ws_incoming s2 15)) ->
  fetch_members s1 t = fetch_members s2 t.
Proof.
  intros Hself Hhead. unfold fetch_members, wait_for.
  rewrite !find_filter_head, Hhead. clear Hhead.
  destruct (parent t) as [channel|]; [|done].
  destruct (head _) as [data|]; [|done].
  assert (forall entries,
            io_map (fun member =>
                      ThreadMember_new s1 t
                        (mkThreadMemberPayload None None None None member None)) entries
            = io_map (fun member =>
                        ThreadMember_new s2 t
                          (mkThreadMemberPayload None None None None member None)) entries)
    as Hmap.
  { induction entries as [|entry entries IH]; [done|]. cbn [io_map].
    rewrite IH. unfold ThreadMember_new. by rewrite Hself. }
  rewrite Hmap. destruct (io_map _ _) as [w' [ms|e]]; [|done].
  f_equal; [|f_equal].
  - unfold _add_member. by rewrite Hself.
  - unfold _add_member. by rewrite Hself.
Qed.

(** What [_from_data] has put in the slots when it gets through. *)
Lemma from_data_slots_fields guild data (t : Thread) :
  _from_data_slots guild data = Ok t ->
  d_id data = Some (id t)
  /\ d_name data = Some (name t)
  /\ last_message_id t = d_last_message_id data
  /\ slowmode_delay t = default 0 (d_rate_limit_per_user data)
  /\ _members t = ∅
  /\ guild = Threads.guild t
  /\ exists meta,
       d_thread_metadata data = Some meta
       /\ archived t = md_archived meta
       /\ auto_archive_duration t = md_auto_archive_duration meta
       /\ archive_timestamp t = parse_time (Some (md_archive_timestamp meta))
       /\ _created_at t = parse_time (md_creation_timestamp meta)
       /\ locked t = default false (md_locked meta)
       /\ invitable t = default true (md_invitable meta).
Proof.
  unfold _from_data_slots, _get_as_snowflake.
  destruct (d_id data) as [i|]; [|done].
  destruct (d_parent_id data) as [p|]; [|done].
  destruct (d_owner_id data) as [o|]; [|done].
  destruct (d_name data) as [n|]; [|done].
  destruct (d_type data) as [ty|]; [|done].
  cbn [getitem bind]. unfold Enums.ChannelType. rewrite EnumFacts.try_enum_eq.
  destruct (d_message_count data) as [mc|]; [|done].
  destruct (d_member_count data) as [mb|]; [|done].
  destruct (d_member_ids_preview data) as [ids|]; [|done].
  destruct (d_thread_metadata data) as [meta|]; [|done].
  cbn [getitem bind]. intros [= <-]. repeat split; try done. by exists meta.
Qed.

(** X13. [Thread(...)] on a payload that lacks one of the keys
    [_from_data] itself reads with [data[...]] raises [KeyError] for
    the first such key in the order the source reads them, [id],
    [parent_id], [owner_id], [name], [type], [message_count],
    [member_count], [member_ids_preview], [thread_metadata], before
    anything leaves the process, whatever else the payload holds.
    (These nine reads all come before [_unroll_metadata] runs; the
    keys of the metadata object are not part of this statement.) *)
Theorem thread_new_first_missing_key state guild data (kv : string * bool) :
  List.find (fun kv : string * bool => negb kv.2) (required_keys data) = Some kv ->
  Thread_new state guild data = ([], Raise (KeyError kv.1)).
Proof.
  unfold required_keys, Thread_new, _from_data_slots, io_raise.
  destruct (d_id data) as [i|]; [|by intros [= <-]].
  destruct (d_parent_id data) as [p|]; [|by intros [= <-]].
  destruct (d_owner_id data) as [o|]; [|by intros [= <-]].
  destruct (d_name data) as [n|]; [|by intros [= <-]].
  destruct (d_type data) as [ty|]; [|by intros [= <-]].
  cbn [getitem bind]. unfold Enums.ChannelType. rewrite EnumFacts.try_enum_eq.
  destruct (d_message_count data) as [mc|]; [|by intros [= <-]].
  destruct (d_member_count data) as [mb|]; [|by intros [= <-]].
  destruct (d_member_ids_preview data) as [ids|]; [|by intros [= <-]].
  destruct (d_thread_metadata data) as [meta|]; [|by intros [= <-]].
  done.
Qed.

(** X14. A thread that has just been built from a payload reports no
    change when [_update] is applied with that same payload: the call
    returns no old snapshot. *)
Theorem update_after_construction_reports_no_change state guild data w (t : Thread) :
  Thread_new state guild data = (w, Ok t) ->
  (_update data t).2 = None.
Proof.
  intros Hnew. apply UpdateFacts.update_snd_none_iff.
  assert (exists t0, _from_data_slots guild data = Ok t0
                     /\ (t = t0 \/ exists m, t = me_setter m t0)) as (t0 & Hslots & Ht).
  { unfold Thread_new in Hnew.
    destruct (_from_data_slots guild data) as [t0|e]; [|by inversion Hnew].
    exists t0. split; [done|].
    destruct (d_member data) as [member|].
    - unfold io_bind in Hnew.
      destruct (ThreadMember_new state t0 member) as [w' [m|e]]; [|by inversion Hnew].
      cbn in Hnew. injection Hnew as _ <-. right. by exists m.
    - unfold io_ret in Hnew. injection Hnew as _ <-. by left. }
  apply from_data_slots_fields in Hslots
    as (_ & Hname & Hlast & Hslow & _ & _ & meta & Hmeta & Ha & Hd & Hts & Hc & Hl & Hi).
  assert (name t = name t0 /\ last_message_id t = last_message_id t0
          /\ slowmode_delay t = slowmode_delay t0 /\ archived t = archived t0
          /\ auto_archive_duration t = auto_archive_duration t0
          /\ archive_timestamp t = archive_timestamp t0
          /\ _created_at t = _created_at t0 /\ locked t = locked t0
          /\ invitable t = invitable t0)
    as (En & El & Es & Ea & Ed & Ets & Ec & Elk & Ei).
  { destruct Ht as [->|[m ->]]; by repeat split. }
  pose proof (UpdateFacts.update_assign_frame data t) as (? & ? & ? & ? & ? & ?).
  pose proof (UpdateFacts.update_assign_top data t) as (Hn & Hlm & _ & _ & _ & Hs).
  pose proof (UpdateFacts.update_assign_metadata data t) as Hm.
  rewrite Hmeta in Hm. destruct Hm as (Hm1 & Hm2 & Hm3 & Hm4 & Hm5 & Hm6).
  unfold same_observable. repeat split; try done.
  - rewrite Hn, Hname. simpl. congruence.
  - rewrite Hlm. destruct (d_last_message_id data); congruence.
  - congruence.
  - congruence.
  - congruence.
  - congruence.
  - congruence.
  - congruence.
  - congruence.
Qed.

(** X15. The member map of a thread that has just been built: empty
    when the payload has no [member] key; otherwise a single record,
    stored by the [me] setter under the payload's [user_id], or under
    the local user's id when [user_id] is missing, with the thread's
    own id as its [thread_id] when [id] is missing. The [me] getter
    finds it exactly when that id is the local user's. *)
Theorem thread_new_member_map state guild data w (t : Thread) :
  Thread_new state guild data = (w, Ok t) ->
  match d_member data with
  | None => _members t = ∅ /\ w = [] /\ me state t = None
  | Some member =>
      let user_id := default (self_id state) (p_user_id member) in
      let record :=
        mkThreadMember user_id (default (id t) (p_id member))
          (parse_time (p_join_timestamp member)) (p_flags member) in
      _members t = {[ user_id := record ]}
      /\ me state t = (if bool_decide (user_id = self_id state) then Some record else None)
  end.
Proof.
  unfold Thread_new. intros Hnew.
  destruct (_from_data_slots guild data) as [t0|e] eqn:Hslots; [|by inversion Hnew].
  apply from_data_slots_fields in Hslots as (_ & _ & _ & _ & Hempty & _).
  destruct (d_member data) as [member|].
  - unfold io_bind in Hnew.
    destruct (ThreadMember_new state t0 member) as [w' [m|e]] eqn:Hm;
      [|by inversion Hnew].
    cbn in Hnew. injection Hnew as _ <-.
    assert (m = mkThreadMember (default (self_id state) (p_user_id member))
                  (default (id t0) (p_id member))
                  (parse_time (p_join_timestamp member)) (p_flags member)) as ->.
    { unfold ThreadMember_new in Hm.
      destruct (p_member member) as [mdata|].
      - destruct (parent t0); [|by inversion Hm].
        destruct (p_user_id member) as [u|]; cbn in Hm; [|by inversion Hm].
        injection Hm as _ <-. by destruct (p_id member).
      - unfold io_ret in Hm. injection Hm as _ <-.
        by destruct (p_user_id member), (p_id member). }
    cbn zeta. unfold me, me_setter. cbn [_members set_members member_id id].
    rewrite Hempty. split; [done|].
    destruct (decide (default (self_id state) (p_user_id member) = self_id state)) as [Heq|Hne].
    + rewrite bool_decide_eq_true_2 by done. rewrite <- Heq at 2.
      rewrite Heq at 1. rewrite <- Heq at 1. apply lookup_insert_eq.
    + rewrite bool_decide_eq_false_2 by done. by rewrite lookup_insert_ne.
  - unfold io_ret in Hnew. injection Hnew as <- <-. unfold me. by rewrite Hempty.
Qed.

(** X18. An update payload without [rate_limit_per_user], applied to a
    thread whose slowmode delay is not 0, always reports a change: the
    delay is reset to 0 and the call returns the thread before the
    call as the old snapshot, whatever else the payload carries. *)
Theorem update_without_rate_limit_reports_change data (t : Thread) :
  d_rate_limit_per_user data = None ->
  slowmode_delay t <> 0%Z ->
  (_update data t).2 = Some t
  /\ slowmode_delay (_update data t).1 = 0%Z.
Proof.
  intros Hnone Hslow.
  pose proof (UpdateFacts.update_assign_top data t) as (_ & _ & _ & _ & _ & Hs).
  rewrite Hnone in Hs. cbn [default] in Hs.
  rewrite UpdateFacts.update_fst. split; [|done].
  destruct ((_update data t).2) as [old|] eqn:Hdiff.
  - f_equal. unfold _update in Hdiff.
    destruct (existsb _ _); by inversion Hdiff.
  - apply UpdateFacts.update_snd_none_iff in Hdiff.
    destruct Hdiff as (_ & _ & _ & _ & _ & _ & Hsame & _). congruence.
Qed.

End WithUtils.

Lemma pop_after_add_round_trip_witness :
  (_pop_member 8 (_add_member Sample.silent (mkThreadMember 8 100 None None)
                    Sample.thread100)).2
  = Some (mkThreadMember 8 100 None None)
  /\ _members (_pop_member 8 (_add_member Sample.silent (mkThreadMember 8 100 None None)
                                Sample.thread100)).1
     = delete 8 (_members Sample.thread100)
  /\ (_members Sample.thread100 !! 8 = None ->
      (_pop_member 8 (_add_member Sample.silent (mkThreadMember 8 100 None None)
                        Sample.thread100)).1
      = Sample.thread100).
Proof.
  apply (pop_after_add_round_trip Sample.silent (mkThreadMember 8 100 None None)
           Sample.thread100).
  vm_compute. discriminate.
Defined.

(** A payload that lacks [name], [message_count] and
    [thread_metadata]: the error names [name], the first of them. *)
Lemma thread_new_first_missing_key_witness :
  Thread_new (U := Sample.utils) Sample.silent Sample.guild1 SampleMore.payload_without_name
  = ([], Raise (KeyError "name")).
Proof.
  apply (thread_new_first_missing_key Sample.silent Sample.guild1
           SampleMore.payload_without_name ("name", false)).
  reflexivity.
Defined.

(** An event for thread 200 ahead of the event for thread 100 changes
    nothing. *)
Lemma fetch_members_reads_first_correlated_event_witness :
  fetch_members (Sample.state_with [Sample.event_for_200; Sample.event_for_100])
    Sample.thread100
  = fetch_members (Sample.state_with [Sample.event_for_100]) Sample.thread100.
Proof.
  apply fetch_members_reads_first_correlated_event; reflexivity.
Defined.

(** A complete payload for thread 100 whose [member] has no [user_id]. *)
Lemma update_after_construction_reports_no_change_witness :
  (_update SampleMore.full_payload SampleMore.built_thread).2 = None.
Proof.
  apply (update_after_construction_reports_no_change Sample.silent Sample.guild1
           SampleMore.full_payload []).
  reflexivity.
Defined.

Lemma thread_new_member_map_witness :
  _members SampleMore.built_thread = {[ 42 := SampleMore.built_member ]}
  /\ me Sample.silent SampleMore.built_thread = Some SampleMore.built_member.
Proof.
  exact (thread_new_member_map Sample.silent Sample.guild1 SampleMore.full_payload []
           SampleMore.built_thread eq_refl).
Defined.

Lemma update_without_rate_limit_reports_change_witness :
  (_update Sample.empty_payload Sample.thread100).2 = Some Sample.thread100
  /\ slowmode_delay (_update Sample.empty_payload Sample.thread100).1 = 0%Z.
Proof.
  apply update_without_rate_limit_reports_change; [reflexivity|].
  vm_compute. discriminate.
Defined.

End ThreadOpsFacts.

(** ** [Thread.purge] and [Thread.delete_messages] *)

Module PurgeMoreFacts.
Import Threads ThreadOps.

Section Loop.
Context {Message : Type} (channel_id : Z) (check : Message -> bool).

(** Every intermediate flush hands over exactly 50 messages, and the
    counter differs from the number of kept messages by a multiple of
    50. *)
Lemma purge_loop_batches history (s : purge_state) :
  (0 <= count s <= 50)%Z ->
  (count s <= Z.of_nat (length (ret s)))%Z ->
  (exists q, Z.of_nat (length (ret s)) - count s = 50 * q)%Z ->
  Forall (fun c : Z * list Message => c.1 = channel_id /\ length c.2 = 50%nat) (deleted s) ->
  let s' := fold_left (purge_step channel_id check) history s in
  (0 <= count s' <= 50)%Z
  /\ (count s' <= Z.of_nat (length (ret s')))%Z
  /\ (exists q, Z.of_nat (length (ret s')) - count s' = 50 * q)%Z
  /\ Forall (fun c : Z * list Message => c.1 = channel_id /\ length c.2 = 50%nat) (deleted s').
Proof.
  revert s. induction history as [|message history IH]; intros s Hc Hlen [q Hq] Hdel;
    cbn [fold_left]; [by eauto|].
  apply IH; unfold purge_step.
  - destruct (count s =? 50)%Z eqn:Hfull; destruct (check message); cbn [count negb];
      try apply Z.eqb_neq in Hfull; lia.
  - destruct (count s =? 50)%Z eqn:Hfull; destruct (check message);
      cbn [count ret negb]; rewrite ?length_app; cbn [length];
      try apply Z.eqb_neq in Hfull; lia.
  - destruct (count s =? 50)%Z eqn:Hfull; destruct (check message);
      cbn [count ret negb]; rewrite ?length_app; cbn [length];
      try apply Z.eqb_eq in Hfull.
    + exists (q + 1)%Z. lia.
    + exists (q + 1)%Z. lia.
    + exists q. lia.
    + exists q. lia.
  - destruct (count s =? 50)%Z eqn:Hfull; destruct (check message);
      cbn [deleted negb]; try done.
    + apply Z.eqb_eq in Hfull. apply Forall_app. split; [done|].
      constructor; [|done]. split; [done|]. cbn [snd].
      pose proof (PurgeFacts.slice_from_neg (ret s) 50 ltac:(lia)) as Hslice.
      change (- (50))%Z with (-50)%Z in Hslice. rewrite Hslice, length_drop. lia.
    + apply Z.eqb_eq in Hfull. apply Forall_app. split; [done|].
      constructor; [|done]. split; [done|]. cbn [snd].
      pose proof (PurgeFacts.slice_from_neg (ret s) 50 ltac:(lia)) as Hslice.
      change (- (50))%Z with (-50)%Z in Hslice. rewrite Hslice, length_drop. lia.
Qed.

End Loop.

(** The messages [purge] looks for: those that pass [check], all of
    them when [check] is [MISSING]. *)
Lemma purge_missing_check {Message : Type} channel_id (history : list Message) :
  purge channel_id None history = purge channel_id (Some (fun _ => true)) history.
Proof. done. Qed.

Lemma purge_once_core {Message : Type} channel_id (check : Message -> bool)
    (history : list Message) :
  (Z.of_nat (length (List.filter check history)) mod 50 <> 0)%Z ->
  (purge channel_id (Some check) history).2 = List.filter check history
  /\ submitted (purge channel_id (Some check) history).1 = List.filter check history
  /\ Forall (fun c : Z * list Message => c.1 = channel_id /\ (0 < length c.2 <= 50)%nat)
       (purge channel_id (Some check) history).1.
Proof.
  intros Hmod.
  pose proof (PurgeFacts.purge_submitted channel_id check history) as [Hret Hsub].
  pose proof (purge_loop_batches channel_id check history (mkPurgeState [] 0 [])) as Hb.
  cbn [count ret deleted length] in Hb.
  destruct Hb as (Hc & Hlen & [q Hq] & Hdel);
    [lia|lia|by exists 0%Z|constructor|].
  set (s := fold_left (purge_step channel_id check) history (mkPurgeState [] 0 [])) in *.
  assert (ret s = List.filter check history) as Hrets by exact Hret.
  assert (count s <> 0)%Z as Hnz.
  { intros Hz. apply Hmod. rewrite <- Hrets.
    replace (Z.of_nat (length (ret s))) with (q * 50)%Z by lia.
    apply Z.mod_mul. lia. }
  split; [done|]. split.
  - rewrite Hsub. fold s. by apply Z.eqb_neq in Hnz as ->.
  - unfold purge. fold s. cbn [fst]. apply Forall_app. split.
    + eapply Forall_impl; [exact Hdel|]. intros c [? Hl]. split; [done|]. lia.
    + constructor; [|done]. split; [done|]. cbn [snd].
      rewrite PurgeFacts.slice_from_neg by lia. rewrite length_drop. lia.
Qed.

(** X11. When the number of messages that pass [check] (all messages,
    when [check] is [MISSING]) is not a multiple of 50, [purge]
    returns exactly those messages, in order, the batches it hands to
    [state._delete_messages] are, put end to end, exactly those
    messages (each one submitted once), and every batch is for the
    thread's id and holds between 1 and 50 messages. *)
Theorem purge_once_when_matches_not_multiple_of_50 {Message : Type} channel_id
    (check : option (Message -> bool)) (history : list Message) :
  let matches := List.filter (default (fun _ => true) check) history in
  (Z.of_nat (length matches) mod 50 <> 0)%Z ->
  (purge channel_id check history).2 = matches
  /\ submitted (purge channel_id check history).1 = matches
  /\ Forall (fun c : Z * list Message => c.1 = channel_id /\ (0 < length c.2 <= 50)%nat)
       (purge channel_id check history).1.
Proof.
  intros matches Hmod. subst matches.
  destruct check as [check|]; cbn [default] in *.
  - by apply purge_once_core.
  - rewrite purge_missing_check. by apply purge_once_core.
Qed.

(** Three messages, no [check]: all three are deleted in one batch. *)
Lemma purge_once_when_matches_not_multiple_of_50_witness :
  (purge 100 None [1; 2; 3]%Z).2 = [1; 2; 3]%Z
  /\ submitted (purge 100 None [1; 2; 3]%Z).1 = [1; 2; 3]%Z
  /\ Forall (fun c : Z * list Z => c.1 = 100%Z /\ (0 < length c.2 <= 50)%nat)
       (purge 100 None [1; 2; 3]%Z).1.
Proof.
  apply (purge_once_when_matches_not_multiple_of_50 100 None [1; 2; 3]%Z).
  vm_compute. discriminate.
Defined.

Lemma purge_loop_no_match {Message : Type} channel_id (check : Message -> bool)
    (history : list Message) (s : purge_state) :
  (count s <> 50)%Z ->
  (forall m, m ∈ history -> check m = false) ->
  fold_left (purge_step channel_id check) history s = s.
Proof.
  intros Hc. induction history as [|m history IH]; intros Hall; cbn [fold_left]; [done|].
  assert (purge_step channel_id check s m = s) as ->.
  { unfold purge_step. apply Z.eqb_neq in Hc. rewrite Hc.
    by rewrite (Hall m) by (apply elem_of_cons; by left). }
  apply IH. intros m' Hm'. apply Hall. apply elem_of_cons. by right.
Qed.

(** X12. When no message of the history passes [check] (an empty
    history included), [purge] returns the empty list and still calls
    [state._delete_messages] once, with an empty list: it does not go
    through [delete_messages], which makes no call for an empty
    list. *)
Theorem purge_without_match_flushes_empty {Message : Type} channel_id
    (check : Message -> bool) (history : list Message) :
  (forall m, m ∈ history -> check m = false) ->
  purge channel_id (Some check) history = ([(channel_id, [])], [])
  /\ delete_messages channel_id (purge channel_id (Some check) history).2 = [].
Proof.
  intros Hall. unfold purge.
  rewrite (purge_loop_no_match channel_id check history) by done.
  done.
Qed.

Lemma purge_without_match_flushes_empty_witness :
  purge 100 (Some (fun m => (m <? 0)%Z)) [1; 2; 3]%Z = ([(100%Z, [])], [])
  /\ delete_messages 100
       (purge 100 (Some (fun m => (m <? 0)%Z)) [1; 2; 3]%Z).2 = [].
Proof.
  apply purge_without_match_flushes_empty.
  intros m Hm. vm_compute in Hm.
  repeat (apply elem_of_cons in Hm as [->|Hm]; [done|]).
  by apply elem_of_nil in Hm.
Defined.

End PurgeMoreFacts.

(** ** [Tracking] *)

Module TrackingFacts.
Import Tracking.

Lemma filter_fst_elem (f : Py.value -> bool) (kwargs : list (string * Py.value)) k :
  k ∈ (List.filter (fun kv : string * Py.value => f kv.2) kwargs).*1
  <-> exists v, (k, v) ∈ kwargs /\ f v = true.
Proof.
  rewrite list_elem_of_fmap. split.
  - intros ([k' v] & -> & Hin). apply list_elem_of_In, filter_In in Hin as [Hin Hf].
    exists v. split; [by apply list_elem_of_In|done].
  - intros (v & Hin & Hf). exists (k, v). split; [done|].
    apply list_elem_of_In, filter_In. split; [by apply list_elem_of_In|done].
Qed.

Lemma NoDup_fst_functional (kwargs : list (string * Py.value)) k v1 v2 :
  NoDup kwargs.*1 -> (k, v1) ∈ kwargs -> (k, v2) ∈ kwargs -> v1 = v2.
Proof.
  induction kwargs as [|[k0 v0] kwargs IH]; [by intros _ ?%elem_of_nil|].
  rewrite fmap_cons. intros [Hfresh Hnd]%NoDup_cons [H1|H1]%elem_of_cons [H2|H2]%elem_of_cons.
  - congruence.
  - exfalso. apply Hfresh. injection H1 as -> ->.
    apply (list_elem_of_fmap_2 fst kwargs (k0, v2) H2).
  - exfalso. apply Hfresh. injection H2 as -> ->.
    apply (list_elem_of_fmap_2 fst kwargs (k0, v1) H1).
  - by apply IH.
Qed.

(** X19. [Tracking.edit] called with keyword arguments: a setting is
    granted exactly when its argument is [True] and revoked exactly
    when it is [False] (an argument that is neither, such as [None]
    or [1], is dropped), and no setting is both granted and revoked.
    After the call the two flags are what the server's answer
    consents to, [False] for a section or a [consented] key that is
    missing, not what was asked for; when the request fails the
    object is unchanged. *)
Theorem tracking_edit_grants_and_revokes
    (edit_tracking : EditPayload -> result TrackingPayload)
    (self : Tracking) (kwargs : list (string * Py.value)) :
  NoDup kwargs.*1 ->
  let payload := edit_payload kwargs in
  (forall k, k ∈ grant payload <-> (k, Py.VBool true) ∈ kwargs)
  /\ (forall k, k ∈ revoke payload <-> (k, Py.VBool false) ∈ kwargs)
  /\ (forall k, ~ (k ∈ grant payload /\ k ∈ revoke payload))
  /\ match edit_tracking payload with
     | Ok data =>
         edit edit_tracking self kwargs
         = (payload,
            mkTracking (get_consented (d_personalization data))
              (get_consented (d_usage_statistics data)),
            Ok tt)
     | Raise e => edit edit_tracking self kwargs = (payload, self, Raise e)
     end.
Proof.
  intros Hnd payload.
  assert (forall k, k ∈ grant payload <-> (k, Py.VBool true) ∈ kwargs) as Hgrant.
  { intros k. unfold payload, edit_payload. cbn [grant]. rewrite filter_fst_elem. split.
    - intros (v & Hin & Hv). by destruct v as [|[]| |].
    - intros Hin. by exists (Py.VBool true). }
  assert (forall k, k ∈ revoke payload <-> (k, Py.VBool false) ∈ kwargs) as Hrevoke.
  { intros k. unfold payload, edit_payload. cbn [revoke]. rewrite filter_fst_elem. split.
    - intros (v & Hin & Hv). by destruct v as [|[]| |].
    - intros Hin. by exists (Py.VBool false). }
  split; [done|]. split; [done|]. split.
  - intros k [Hg Hr]. apply Hgrant in Hg. apply Hrevoke in Hr.
    by pose proof (NoDup_fst_functional kwargs k _ _ Hnd Hg Hr).
  - unfold edit. fold payload. by destruct (edit_tracking payload).
Qed.

Lemma tracking_edit_grants_and_revokes_witness :
  let kwargs := [ ("personalization", Py.VBool true);
                  ("usage_statistics", Py.VBool false) ] in
  let answer := fun _ : EditPayload =>
                  Ok (mkTrackingPayload (Some (mkConsentSection (Some true))) None) in
  edit answer (mkTracking false true) kwargs
  = (mkEditPayload ["personalization"] ["usage_statistics"], mkTracking true false, Ok tt).
Proof.
  intros kwargs answer.
  destruct (tracking_edit_grants_and_revokes answer (mkTracking false true) kwargs)
    as (_ & _ & _ & Hedit).
  - apply (bool_decide_unpack _). by vm_compute.
  - exact Hedit.
Defined.

End TrackingFacts.
